(** * Shorekeeper: the payment-line parser, the recorder and the weekly report

    A shallow embedding of [Shorekeeper.py] (the Discord money-collection
    bot) and the proofs of the properties its specification states about
    the calendar helpers, [parse_payment_line], the batch recorder inside
    [on_message], [generate_weekly_report] and [addmember].

    Conventions of the embedding.

    - Text.  A Python [str] is represented by the bytes of its UTF-8
      encoding, a Rocq [string].  Character classes ([str.lower],
      [str.strip], [str.split], [str.isdigit], the grammar of [float])
      are those of Python on U+0000..U+007F; bytes from 0x80 up are
      letters without case.
    - Numbers.  A Python [float] is a binary64 value, a [spec_float] with
      precision 53 and maximal exponent 1024; [float(s)] and the format
      [:.2f] round the exact value to nearest, ties to even.
    - Dates.  A date is its proleptic Gregorian ordinal ([date.toordinal]),
      an integer; [datetime.now()] is an explicit argument [now], read once
      per handler.
    - Effects.  The data file, the number of [save_data] calls and the
      messages sent form a [World] that handlers transform. *)

From Stdlib Require Import ZArith List String Ascii Bool Lia Arith.
From Stdlib Require Import Floats.SpecFloat Numbers.DecimalString.
From Stdlib Require Import Numbers.DecimalN Numbers.DecimalPos.
From Stdlib Require Import Sorting.Permutation.
Import ListNotations.

Local Open Scope list_scope.
Local Open Scope string_scope.

(** ** Python strings *)

Module PyStr.

(** [str.isspace] on one character: TAB..CR, FS..US and the space. *)
Definition isspace (c : ascii) : bool :=
  let n := nat_of_ascii c in
  (((9 <=? n) && (n <=? 13)) || ((28 <=? n) && (n <=? 32)))%nat.

Definition isdigit (c : ascii) : bool :=
  let n := nat_of_ascii c in ((48 <=? n) && (n <=? 57))%nat.

Definition isupper (c : ascii) : bool :=
  let n := nat_of_ascii c in ((65 <=? n) && (n <=? 90))%nat.

Definition lower_char (c : ascii) : ascii :=
  if isupper c then ascii_of_nat (nat_of_ascii c + 32) else c.

(** [s.lower()] *)
Fixpoint lower (s : string) : string :=
  match s with
  | EmptyString => EmptyString
  | String c s' => String (lower_char c) (lower s')
  end.

(** [s.lstrip()], [s.rstrip()], [s.strip()] *)
Fixpoint lstrip (s : string) : string :=
  match s with
  | EmptyString => EmptyString
  | String c s' => if isspace c then lstrip s' else s
  end.

Fixpoint rstrip (s : string) : string :=
  match s with
  | EmptyString => EmptyString
  | String c s' =>
      match rstrip s' with
      | EmptyString => if isspace c then EmptyString else String c EmptyString
      | r => String c r
      end
  end.

Definition strip (s : string) : string := rstrip (lstrip s).

(** [s.startswith(p)] *)
Definition startswith (p s : string) : bool := String.prefix p s.

(** [s.replace(old, '')] for a non-empty [old]: the occurrences of [old]
    are found from the left and do not overlap.  [skip] counts the
    characters of the occurrence being removed that are still ahead. *)
Fixpoint remove_from (old : string) (skip : nat) (s : string) : string :=
  match s with
  | EmptyString => EmptyString
  | String c s' =>
      match skip with
      | S k => remove_from old k s'
      | O =>
          if String.prefix old s
          then remove_from old (String.length old - 1) s'
          else String c (remove_from old 0 s')
      end
  end.

Definition remove (old s : string) : string := remove_from old 0 s.

(** [s.split()]: the maximal runs of non-space characters.  [cur] is the
    run being read. *)
Fixpoint split_from (cur : string) (s : string) : list string :=
  match s with
  | EmptyString =>
      match cur with EmptyString => [] | _ => [cur] end
  | String c s' =>
      if isspace c
      then match cur with
           | EmptyString => split_from EmptyString s'
           | _ => cur :: split_from EmptyString s'
           end
      else split_from (cur ++ String c EmptyString) s'
  end.

Definition split (s : string) : list string := split_from EmptyString s.

(** [s.split('\n')]: always at least one piece. *)
Fixpoint split_on_from (sep : ascii) (cur : string) (s : string) : list string :=
  match s with
  | EmptyString => [cur]
  | String c s' =>
      if Ascii.eqb c sep
      then cur :: split_on_from sep EmptyString s'
      else split_on_from sep (cur ++ String c EmptyString) s'
  end.

Definition split_on (sep : ascii) (s : string) : list string :=
  split_on_from sep EmptyString s.

(** [sep.join(parts)] *)
Definition join (sep : string) (parts : list string) : string :=
  String.concat sep parts.

(** [s[1:]] *)
Definition tail (s : string) : string :=
  match s with
  | EmptyString => EmptyString
  | String _ s' => s'
  end.

(** [s[:n]] *)
Fixpoint take (n : nat) (s : string) : string :=
  match n, s with
  | S k, String c s' => String c (take k s')
  | _, _ => EmptyString
  end.

(** [c in s] for a character *)
Fixpoint contains_char (c : ascii) (s : string) : bool :=
  match s with
  | EmptyString => false
  | String d s' => Ascii.eqb c d || contains_char c s'
  end.

(** [any(p(ch) for ch in s)] *)
Fixpoint any_char (p : ascii -> bool) (s : string) : bool :=
  match s with
  | EmptyString => false
  | String d s' => p d || any_char p s'
  end.

(** [ch * n] *)
Fixpoint repeat_char (c : ascii) (n : nat) : string :=
  match n with
  | O => EmptyString
  | S k => String c (repeat_char c k)
  end.

Definition nl : string := String (ascii_of_nat 10) EmptyString.

End PyStr.

(** ** Python floats *)

Module PyFloat.

Definition float : Type := spec_float.

Definition prec : Z := 53.
Definition emax : Z := 1024.

(** [0.0]; the integer [0] that starts a running total behaves like it
    under [+], [> 0] and [:.2f]. *)
Definition zero : float := S754_zero false.

(** [x + y] *)
Definition add (x y : float) : float := SFadd prec emax x y.

(** [x > 0] *)
Definition gt0 (x : float) : bool := SFltb zero x.

(** The float nearest to [m * 10^e], with the sign [neg]. *)
Definition of_decimal (neg : bool) (m e : Z) : float :=
  match m with
  | Zpos p =>
      match e with
      | Zneg k =>
          SFdiv prec emax (S754_finite neg p 0)
                (S754_finite false (Pos.pow 10 k) 0)
      | _ => binary_round prec emax neg (Z.to_pos (Zpos p * 10 ^ e)) 0
      end
  | _ => S754_zero neg
  end.

Definition digit_value (c : ascii) : Z := Z.of_nat (nat_of_ascii c) - 48.

Fixpoint digits_value (acc : Z) (s : string) : Z :=
  match s with
  | EmptyString => acc
  | String c s' => digits_value (10 * acc + digit_value c) s'
  end.

(** The longest prefix of digits, and what follows it. *)
Fixpoint span_digits (s : string) : string * string :=
  match s with
  | EmptyString => (EmptyString, EmptyString)
  | String c s' =>
      if PyStr.isdigit c
      then let (d, r) := span_digits s' in (String c d, r)
      else (EmptyString, s)
  end.

Definition parse_sign (s : string) : bool * string :=
  match s with
  | String "-" r => (true, r)
  | String "+" r => (false, r)
  | _ => (false, s)
  end.

(** An underscore is accepted between two digits only. *)
Fixpoint underscores_ok (prev : ascii) (s : string) : bool :=
  match s with
  | EmptyString => negb (Ascii.eqb prev "_")
  | String c s' =>
      (if Ascii.eqb c "_" then PyStr.isdigit prev
       else negb (Ascii.eqb prev "_") || PyStr.isdigit c)
      && underscores_ok c s'
  end.

Fixpoint drop_underscores (s : string) : string :=
  match s with
  | EmptyString => EmptyString
  | String c s' =>
      if Ascii.eqb c "_" then drop_underscores s'
      else String c (drop_underscores s')
  end.

(** The exponent part: nothing, or [e], an optional sign and digits. *)
Definition parse_exponent (s : string) : option Z :=
  match s with
  | EmptyString => Some 0%Z
  | String c r =>
      if Ascii.eqb (PyStr.lower_char c) "e"
      then let (neg, r1) := parse_sign r in
           let (ds, r2) := span_digits r1 in
           match ds, r2 with
           | String _ _, EmptyString =>
               Some (if neg then - digits_value 0 ds else digits_value 0 ds)%Z
           | _, _ => None
           end
      else None
  end.

(** [float(s)] for a string without surrounding white space; [None] is
    [ValueError]. *)
Definition of_string (s : string) : option float :=
  if underscores_ok "000" s then
    let t := drop_underscores s in
    let (neg, r) := parse_sign t in
    let lr := PyStr.lower r in
    if String.eqb lr "inf" || String.eqb lr "infinity"
    then Some (S754_infinity neg)
    else if String.eqb lr "nan" then Some S754_nan
    else
      let (ip, r1) := span_digits r in
      let (fp, r2) :=
        match r1 with
        | String "." r1' => span_digits r1'
        | _ => (EmptyString, r1)
        end in
      match ip ++ fp with
      | EmptyString => None
      | ds =>
          match parse_exponent r2 with
          | Some ex =>
              Some (of_decimal neg (digits_value 0 ds)
                               (ex - Z.of_nat (String.length fp)))
          | None => None
          end
      end
  else None.

Definition dec (n : Z) : string :=
  DecimalString.NilZero.string_of_uint (N.to_uint (Z.to_N n)).

(** [n / d] rounded to the nearest integer, ties to even; [0 < d]. *)
Definition div_half_even (n d : Z) : Z :=
  let q := (n / d)%Z in
  let r := (n mod d)%Z in
  match (2 * r ?= d)%Z with
  | Lt => q
  | Gt => (q + 1)%Z
  | Eq => if Z.even q then q else (q + 1)%Z
  end.

Definition two_digits (n : Z) : string :=
  if (n <? 10)%Z then "0" ++ dec n else dec n.

(** [f"{x:.2f}"] *)
Definition format_2f (x : float) : string :=
  match x with
  | S754_nan => "nan"
  | S754_infinity s => if s then "-inf" else "inf"
  | S754_zero s => (if s then "-" else "") ++ "0.00"
  | S754_finite s m e =>
      let cents :=
        match e with
        | Zneg k => div_half_even (Zpos m * 100) (Zpos (Pos.pow 2 k))
        | _ => (Zpos m * 100 * 2 ^ e)%Z
        end in
      (if s then "-" else "")
      ++ dec (cents / 100) ++ "." ++ two_digits (cents mod 100)
  end.

End PyFloat.

(** ** Dates and the clock *)

Module Calendar.

Local Open Scope Z_scope.

(** What [datetime.now()] returns: the ordinal of the date and the time
    of day. *)
Record datetime : Type :=
  { ordinal : Z; hour : Z; minute : Z; second : Z }.

(** [d.weekday()]: Monday is 0, Sunday is 6. *)
Definition weekday (d : Z) : Z := (d + 6) mod 7.

Definition DI400Y : Z := 146097.
Definition DI100Y : Z := 36524.
Definition DI4Y : Z := 1461.

Definition DAYS_IN_MONTH : list Z :=
  [0; 31; 28; 31; 30; 31; 30; 31; 31; 30; 31; 30; 31].
Definition DAYS_BEFORE_MONTH : list Z :=
  [0; 0; 31; 59; 90; 120; 151; 181; 212; 243; 273; 304; 334].

Definition b2z (b : bool) : Z := if b then 1 else 0.

(** [datetime._ord2ymd]: the year, month and day of an ordinal. *)
Definition ord2ymd (n : Z) : Z * Z * Z :=
  let n := n - 1 in
  let n400 := n / DI400Y in
  let n := n mod DI400Y in
  let year := n400 * 400 + 1 in
  let n100 := n / DI100Y in
  let n := n mod DI100Y in
  let n4 := n / DI4Y in
  let n := n mod DI4Y in
  let n1 := n / 365 in
  let n := n mod 365 in
  let year := year + n100 * 100 + n4 * 4 + n1 in
  if (n1 =? 4) || (n100 =? 4) then (year - 1, 12, 31)
  else
    let leapyear := (n1 =? 3) && (negb (n4 =? 24) || (n100 =? 3)) in
    let month := Z.shiftr (n + 50) 5 in
    let preceding :=
      nth (Z.to_nat month) DAYS_BEFORE_MONTH 0
      + b2z ((2 <? month) && leapyear) in
    if n <? preceding
    then
      let month := month - 1 in
      let preceding :=
        preceding - (nth (Z.to_nat month) DAYS_IN_MONTH 0
                     + b2z ((month =? 2) && leapyear)) in
      (year, month, n - preceding + 1)
    else (year, month, n - preceding + 1).

Definition MONTHS : list string :=
  [""; "January"; "February"; "March"; "April"; "May"; "June"; "July";
   "August"; "September"; "October"; "November"; "December"].

(** [d.strftime('%Y-%m-%d')]; the year is printed as glibc does, without
    padding (four digits from the year 1000 on). *)
Definition strftime_Y_m_d (d : Z) : string :=
  let '(y, m, dd) := ord2ymd d in
  (PyFloat.dec y ++ "-" ++ PyFloat.two_digits m ++ "-"
   ++ PyFloat.two_digits dd)%string.

(** [d.strftime('%B %d')] *)
Definition strftime_B_d (d : Z) : string :=
  let '(y, m, dd) := ord2ymd d in
  (nth (Z.to_nat m) MONTHS "" ++ " " ++ PyFloat.two_digits dd)%string.

(** [d.strftime('%B %d, %Y')] *)
Definition strftime_B_d_Y (d : Z) : string :=
  let '(y, m, dd) := ord2ymd d in
  (nth (Z.to_nat m) MONTHS "" ++ " " ++ PyFloat.two_digits dd ++ ", "
   ++ PyFloat.dec y)%string.

(** [t.strftime('%H:%M:%S')] *)
Definition strftime_H_M_S (t : datetime) : string :=
  (PyFloat.two_digits (hour t) ++ ":" ++ PyFloat.two_digits (minute t)
   ++ ":" ++ PyFloat.two_digits (second t))%string.

Definition DAYS : list string :=
  ["Monday"; "Tuesday"; "Wednesday"; "Thursday"; "Friday"; "Saturday";
   "Sunday"].

(** Tuesday = 1 to Saturday = 5 *)
Definition COLLECTION_DAYS : list Z := [1; 2; 3; 4; 5].

(** [DAYS[d.weekday()]] *)
Definition day_name (d : Z) : string :=
  nth (Z.to_nat (weekday d)) DAYS ""%string.

(** [x in xs] on integers *)
Definition z_in (x : Z) (xs : list Z) : bool := existsb (Z.eqb x) xs.

Definition is_collection_day (now : datetime) : bool :=
  z_in (weekday (ordinal now)) COLLECTION_DAYS.

Definition is_report_day (now : datetime) : bool :=
  weekday (ordinal now) =? 6.

(** The (Tuesday, Saturday) of the reporting week.  A [timedelta] of
    whole days moves the ordinal and keeps the time of day, which
    [.date()] then drops. *)
Definition get_week_range (now : datetime) : Z * Z :=
  let today := ordinal now in
  let current_weekday := weekday today in
  let days_since_tuesday :=
    if current_weekday =? 6 then 5
    else if 1 <=? current_weekday then current_weekday - 1
    else 6 in
  let tuesday := today - days_since_tuesday in
  let saturday := tuesday + 4 in
  (tuesday, saturday).

End Calendar.

(** ** Insertion-ordered dictionaries with string keys *)

Module Dict.

Section WithValues.
Context {V : Type}.

Definition t : Type := list (string * V).

(** [d.get(k)] *)
Fixpoint get (k : string) (d : t) : option V :=
  match d with
  | [] => None
  | (k', v) :: r => if String.eqb k' k then Some v else get k r
  end.

(** [k in d] *)
Definition mem (k : string) (d : t) : bool :=
  match get k d with Some _ => true | None => false end.

(** [d[k] = v]: a key that is present keeps its place. *)
Fixpoint set (k : string) (v : V) (d : t) : t :=
  match d with
  | [] => [(k, v)]
  | (k', v') :: r =>
      if String.eqb k' k then (k', v) :: r else (k', v') :: set k v r
  end.

(** [{k: v for k in ks}] *)
Definition from_keys (ks : list string) (v : V) : t :=
  fold_left (fun d k => set k v d) ks [].

(** [d.keys()] *)
Definition keys (d : t) : list string := map fst d.

End WithValues.

Arguments t V : clear implicits.

End Dict.

(** ** The ledger *)

(** One payment record, as [on_message] builds it; the amount is the
    float that [parse_payment_line] returned. *)
Record payment : Type :=
  { username : string;
    amount : PyFloat.float;
    date : string;
    time : string;
    day : string;
    recorded_by : string }.

(** The content of the data file. *)
Record ledger : Type :=
  { payments : list payment;
    members : list string;
    report_channel : option Z }.

(** [data["payments"].append(p)] *)
Definition append_payment (data : ledger) (p : payment) : ledger :=
  {| payments := (payments data ++ [p])%list;
     members := members data;
     report_channel := report_channel data |}.

(** What [load_data] returns when there is no data file. *)
Definition empty_ledger : ledger :=
  {| payments := []; members := []; report_channel := None |}.

(** ** The line parser *)

(** [x == y] on strings, ignoring case: [x.lower() == y.lower()] *)
Definition same_name (x y : string) : bool :=
  String.eqb (PyStr.lower x) (PyStr.lower y).

(** The loop [for i in range(len(parts) - 1, 0, -1)]: the first [i], going
    down from the given one to 1, whose token [float] accepts, with the
    value; [None] when the loop ends with [amount] still [None]. *)
Fixpoint scan_amount (parts : list string) (i : nat)
  : option (PyFloat.float * nat) :=
  match i with
  | O => None
  | S j =>
      match PyFloat.of_string (nth i parts "") with
      | Some amount => Some (amount, i)
      | None => scan_amount parts j
      end
  end.

Definition parse_payment_line (line : string) (members : list string)
  : option string * option PyFloat.float :=
  let line := PyStr.lower (PyStr.strip line) in
  if negb (PyStr.startswith "@" line) then (None, None)
  else
    let line := PyStr.remove "paid" (PyStr.remove " paid" line) in
    let parts := PyStr.split line in
    if (List.length parts <? 2)%nat then (None, None)
    else
      match scan_amount parts (List.length parts - 1) with
      | None => (None, None)
      | Some (amount, amount_index) =>
          let username :=
            PyStr.tail (PyStr.join " " (firstn amount_index parts)) in
          match find (fun member => same_name member username) members with
          | Some member => (Some member, Some amount)
          | None => (Some username, Some amount)
          end
      end.

(** ** The weekly report *)

Record report_state : Type :=
  { report : string;
    week_total : PyFloat.float;
    member_totals : Dict.t PyFloat.float;
    member_days : Dict.t (list string) }.

(** The body of [for p in day_payments], on the pair of [daily_total] and
    the rest of the state. *)
Definition report_payment (day_name : string)
    (acc : PyFloat.float * report_state) (p : payment)
  : PyFloat.float * report_state :=
  let (daily_total, st) := acc in
  let report :=
    report st ++ "   • @" ++ username p ++ ": $"
    ++ PyFloat.format_2f (amount p) ++ PyStr.nl in
  let daily_total := PyFloat.add daily_total (amount p) in
  let week_total := PyFloat.add (week_total st) (amount p) in
  match Dict.get (username p) (member_totals st) with
  | Some total =>
      (daily_total,
       {| report := report;
          week_total := week_total;
          member_totals :=
            Dict.set (username p) (PyFloat.add total (amount p))
                     (member_totals st);
          member_days :=
            match Dict.get (username p) (member_days st) with
            | Some days =>
                Dict.set (username p) (days ++ [PyStr.take 3 day_name])%list
                         (member_days st)
            | None => member_days st
            end |})
  | None =>
      (daily_total,
       {| report := report;
          week_total := week_total;
          member_totals := member_totals st;
          member_days := member_days st |})
  end.

(** The body of [while current_date <= saturday]. *)
Definition report_day (data : ledger) (current_date : Z) (st : report_state)
  : report_state :=
  let date_str := Calendar.strftime_Y_m_d current_date in
  let day_name := Calendar.day_name current_date in
  let day_payments :=
    filter (fun p => String.eqb (date p) date_str) (payments data) in
  let st :=
    {| report :=
         report st ++ PyStr.nl ++ "📅 " ++ day_name ++ " (" ++ date_str
         ++ "):" ++ PyStr.nl;
       week_total := week_total st;
       member_totals := member_totals st;
       member_days := member_days st |} in
  match day_payments with
  | [] =>
      {| report := report st ++ "   No payments recorded" ++ PyStr.nl;
         week_total := week_total st;
         member_totals := member_totals st;
         member_days := member_days st |}
  | _ =>
      let (daily_total, st) :=
        fold_left (report_payment day_name) day_payments
                  (PyFloat.zero, st) in
      {| report :=
           report st ++ "   Daily Total: $" ++ PyFloat.format_2f daily_total
           ++ PyStr.nl;
         week_total := week_total st;
         member_totals := member_totals st;
         member_days := member_days st |}
  end.

(** [while current_date <= saturday: ...; current_date += timedelta(days=1)].
    The dates that are left, [saturday - current_date + 1] of them, get
    fewer at each turn; [fuel] is given as one more than their number, so
    the loop ends by its condition ([report_days_fuel]). *)
Fixpoint report_days (fuel : nat) (data : ledger) (saturday current_date : Z)
    (st : report_state) : report_state :=
  match fuel with
  | O => st
  | S k =>
      if (current_date <=? saturday)%Z
      then report_days k data saturday (current_date + 1)
                       (report_day data current_date st)
      else st
  end.

(** The body of [for member, total in member_totals.items()]. *)
Definition summary_line (member_days : Dict.t (list string))
    (report : string) (entry : string * PyFloat.float) : string :=
  let (member, total) := entry in
  let status := if PyFloat.gt0 total then "✅" else "❌" in
  let days :=
    match Dict.get member member_days with
    | Some (d :: ds) => PyStr.join ", " (d :: ds)
    | _ => "None"
    end in
  report ++ status ++ " @" ++ member ++ ": $" ++ PyFloat.format_2f total
  ++ " (Days: " ++ days ++ ")" ++ PyStr.nl.

Definition report_header (tuesday saturday : Z) : string :=
  "```" ++ PyStr.nl
  ++ PyStr.repeat_char "=" 50 ++ PyStr.nl
  ++ "📊 WEEKLY MONEY COLLECTION REPORT" ++ PyStr.nl
  ++ "📆 " ++ Calendar.strftime_B_d tuesday ++ " - "
  ++ Calendar.strftime_B_d_Y saturday ++ PyStr.nl
  ++ PyStr.repeat_char "=" 50 ++ PyStr.nl ++ PyStr.nl
  ++ "📋 DAILY BREAKDOWN:" ++ PyStr.nl
  ++ PyStr.repeat_char "-" 40 ++ PyStr.nl.

(** The state when the daily breakdown is over. *)
Definition daily_breakdown (data : ledger) (now : Calendar.datetime)
  : report_state :=
  let (tuesday, saturday) := Calendar.get_week_range now in
  report_days (S (Z.to_nat (saturday - tuesday + 1))) data saturday tuesday
    {| report := report_header tuesday saturday;
       week_total := PyFloat.zero;
       member_totals := Dict.from_keys (members data) PyFloat.zero;
       member_days := Dict.from_keys (members data) [] |}.

Definition generate_weekly_report (data : ledger) (now : Calendar.datetime)
  : string :=
  let st := daily_breakdown data now in
  let report :=
    report st ++ PyStr.nl ++ PyStr.repeat_char "-" 40 ++ PyStr.nl
    ++ "👥 MEMBER SUMMARY:" ++ PyStr.nl
    ++ PyStr.repeat_char "-" 40 ++ PyStr.nl in
  let report :=
    fold_left (summary_line (member_days st)) (member_totals st) report in
  report ++ PyStr.nl ++ PyStr.repeat_char "=" 50 ++ PyStr.nl
  ++ "💰 WEEKLY TOTAL: $" ++ PyFloat.format_2f (week_total st) ++ PyStr.nl
  ++ PyStr.repeat_char "=" 50 ++ PyStr.nl
  ++ "```".

(** ** The bot and its world *)

(** A message the bot sends.  The confirmation texts of the handlers are
    not rendered: a message carries what its text is built from.  The
    warnings of a batch and the weekly report are the texts themselves. *)
Inductive sent : Type :=
| CollectionClosed (day_name : string)
| PaymentsRecorded (recorded : list payment) (errors : list string)
| MembersMissing (errors : list string)
| SetupComplete (members : list string)
| MemberAdded (name : string)
| MemberAlreadyInList (name : string)
| MemberRemoved (name : string)
| MemberNotInList (name : string)
| DataCleared
| WeeklyReport (text : string).

Record World : Type :=
  { clock : Calendar.datetime;       (* [datetime.now()] *)
    bot_user : string;               (* [bot.user] *)
    data_file : option ledger;       (* the content of [DATA_FILE], if it exists *)
    saves : nat;                     (* how often [save_data] has run *)
    outbox : list sent }.            (* the messages sent, oldest first *)

Definition load_data (w : World) : ledger :=
  match data_file w with
  | Some data => data
  | None => empty_ledger
  end.

Definition save_data (data : ledger) (w : World) : World :=
  {| clock := clock w;
     bot_user := bot_user w;
     data_file := Some data;
     saves := S (saves w);
     outbox := outbox w |}.

Definition send (m : sent) (w : World) : World :=
  {| clock := clock w;
     bot_user := bot_user w;
     data_file := data_file w;
     saves := saves w;
     outbox := (outbox w ++ [m])%list |}.

(** The state of the loop over the lines of one message. *)
Record batch : Type :=
  { ledger_of : ledger;              (* [data] *)
    recorded_payments : list payment;
    errors : list string }.

Definition not_in_member_list (username : string) : string :=
  "⚠️ **@" ++ username ++ "** not in member list".

(** The body of [for line in lines].  [members] is the roster read before
    the loop; [parse_payment_line] returns a name and an amount together
    or neither, so the last case does not arise. *)
Definition record_line (members : list string) (now : Calendar.datetime)
    (author : string) (b : batch) (line : string) : batch :=
  let line := PyStr.strip line in
  if negb (PyStr.startswith "@" line) then b
  else
    match parse_payment_line line members with
    | (None, _) => b
    | (Some username, Some amount) =>
        match find (fun m => same_name m username) members with
        | Some (String c m' as member_match) =>
            let payment :=
              {| username := member_match;
                 amount := amount;
                 date := Calendar.strftime_Y_m_d (Calendar.ordinal now);
                 time := Calendar.strftime_H_M_S now;
                 day := Calendar.day_name (Calendar.ordinal now);
                 recorded_by := author |} in
            {| ledger_of := append_payment (ledger_of b) payment;
               recorded_payments := (recorded_payments b ++ [payment])%list;
               errors := errors b |}
        | _ =>
            (* [not member_match]: no match, or the match is the empty name *)
            {| ledger_of := ledger_of b;
               recorded_payments := recorded_payments b;
               errors := (errors b ++ [not_in_member_list username])%list |}
        end
    | (Some username, None) => b
    end.

(** The payment part of [on_message]; [bot.process_commands] belongs to
    the command framework and is left out. *)
Definition on_message (author content : string) (w : World) : World :=
  if String.eqb author (bot_user w) then w
  else
    let content := PyStr.strip content in
    if PyStr.contains_char "@" content && PyStr.any_char PyStr.isdigit content
    then
      if negb (Calendar.is_collection_day (clock w))
      then send (CollectionClosed (Calendar.day_name (Calendar.ordinal (clock w)))) w
      else
        let data := load_data w in
        let members := members data in
        let lines := PyStr.split_on (ascii_of_nat 10) content in
        let b :=
          fold_left (record_line members (clock w) author) lines
                    {| ledger_of := data; recorded_payments := [];
                       errors := [] |} in
        match recorded_payments b with
        | _ :: _ =>
            send (PaymentsRecorded (recorded_payments b) (errors b))
                 (save_data (ledger_of b) w)
        | [] =>
            match errors b with
            | _ :: _ => send (MembersMissing (errors b)) w
            | [] => w
            end
        end
    else w.

(** ** The roster commands *)

(** [name.lower().replace("@", "")] *)
Definition normalize (name : string) : string :=
  PyStr.remove "@" (PyStr.lower name).

(** [x in xs] on strings *)
Definition str_in (x : string) (xs : list string) : bool :=
  existsb (String.eqb x) xs.

(** [xs.remove(x)]: the first occurrence goes. *)
Fixpoint list_remove (x : string) (xs : list string) : list string :=
  match xs with
  | [] => []
  | y :: r => if String.eqb x y then r else y :: list_remove x r
  end.

Definition setup (channel_id : Z) (member1 member2 member3 member4 : string)
    (w : World) : World :=
  let data := load_data w in
  let members := map normalize [member1; member2; member3; member4] in
  let data :=
    {| payments := payments data;
       members := members;
       report_channel := Some channel_id |} in
  send (SetupComplete members) (save_data data w).

Definition addmember (name : string) (w : World) : World :=
  let data := load_data w in
  let name := normalize name in
  if str_in name (members data)
  then send (MemberAlreadyInList name) w
  else
    let data :=
      {| payments := payments data;
         members := (members data ++ [name])%list;
         report_channel := report_channel data |} in
    send (MemberAdded name) (save_data data w).

Definition removemember (name : string) (w : World) : World :=
  let data := load_data w in
  let name := normalize name in
  if negb (str_in name (members data))
  then send (MemberNotInList name) w
  else
    let data :=
      {| payments := payments data;
         members := list_remove name (members data);
         report_channel := report_channel data |} in
    send (MemberRemoved name) (save_data data w).

Definition clear (w : World) : World :=
  let data := load_data w in
  let data :=
    {| payments := [];
       members := members data;
       report_channel := report_channel data |} in
  send DataCleared (save_data data w).

(** The command [/report]. *)
Definition report_command (w : World) : World :=
  let data := load_data w in
  send (WeeklyReport (generate_weekly_report data (clock w))) w.

(** ** The vocabulary of the specification *)

(** Every character of [s] satisfies [p]. *)
Fixpoint all_chars (p : ascii -> bool) (s : string) : bool :=
  match s with
  | EmptyString => true
  | String c s' => p c && all_chars p s'
  end.

Definition not_upper (c : ascii) : bool := negb (PyStr.isupper c).

(** The white-space tokens of a line once it is trimmed and lowercased and
    the substrings " paid" and "paid" are removed. *)
Definition tokens (line : string) : list string :=
  PyStr.split
    (PyStr.remove "paid"
       (PyStr.remove " paid" (PyStr.lower (PyStr.strip line)))).

(** Token [i] is the rightmost token, the first one apart, that parses as
    a floating-point number, and [x] is its value. *)
Definition rightmost_amount (parts : list string) (i : nat)
    (x : PyFloat.float) : Prop :=
  (1 <= i < List.length parts)%nat /\
  PyFloat.of_string (nth i parts "") = Some x /\
  forall j, (i < j < List.length parts)%nat ->
            PyFloat.of_string (nth j parts "") = None.

(** The name returned for a candidate: the first member of the roster
    that equals it up to case, the candidate itself when there is none. *)
Definition resolve (members : list string) (candidate : string) : string :=
  match find (fun member => same_name member candidate) members with
  | Some member => member
  | None => candidate
  end.

(** The payments of the ledger dated [d], in the order of the ledger. *)
Definition day_payments (data : ledger) (d : Z) : list payment :=
  filter (fun p => String.eqb (date p) (Calendar.strftime_Y_m_d d))
         (payments data).

(** The dates of the daily breakdown: the Tuesday of the week and the
    four days after it. *)
Fixpoint dates_from (d : Z) (n : nat) : list Z :=
  match n with
  | O => []
  | S k => d :: dates_from (d + 1) k
  end.

Definition week_dates (now : Calendar.datetime) : list Z :=
  dates_from (fst (Calendar.get_week_range now)) 5.

(** The payments of the reporting week, day after day. *)
Definition week_payments (data : ledger) (now : Calendar.datetime)
  : list payment :=
  flat_map (day_payments data) (week_dates now).

(** The same, each with its date. *)
Definition week_dated_payments (data : ledger) (now : Calendar.datetime)
  : list (Z * payment) :=
  flat_map (fun d => map (pair d) (day_payments data d)) (week_dates now).

(** The running total [start + a1 + a2 + ...], added from the left. *)
Definition sum_amounts (start : PyFloat.float) (ps : list payment)
  : PyFloat.float :=
  fold_left (fun total p => PyFloat.add total (amount p)) ps start.

(** The parts of the text of the report. *)
Definition day_heading (d : Z) : string :=
  PyStr.nl ++ "📅 " ++ Calendar.day_name d ++ " ("
  ++ Calendar.strftime_Y_m_d d ++ "):" ++ PyStr.nl.

Definition payment_line (p : payment) : string :=
  "   • @" ++ username p ++ ": $" ++ PyFloat.format_2f (amount p)
  ++ PyStr.nl.

Definition no_payments_day (d : Z) : string :=
  day_heading d ++ "   No payments recorded" ++ PyStr.nl.

Definition day_section (data : ledger) (d : Z) : string :=
  match day_payments data d with
  | [] => no_payments_day d
  | ps =>
      day_heading d ++ String.concat "" (map payment_line ps)
      ++ "   Daily Total: $" ++ PyFloat.format_2f (sum_amounts PyFloat.zero ps)
      ++ PyStr.nl
  end.

Definition summary_heading : string :=
  PyStr.nl ++ PyStr.repeat_char "-" 40 ++ PyStr.nl
  ++ "👥 MEMBER SUMMARY:" ++ PyStr.nl
  ++ PyStr.repeat_char "-" 40 ++ PyStr.nl.

Definition summary_entry (member_days : Dict.t (list string))
    (entry : string * PyFloat.float) : string :=
  summary_line member_days "" entry.

Definition unpaid_line (member : string) : string :=
  "❌ @" ++ member ++ ": $0.00 (Days: None)" ++ PyStr.nl.

Definition report_footer (week_total : PyFloat.float) : string :=
  PyStr.nl ++ PyStr.repeat_char "=" 50 ++ PyStr.nl
  ++ "💰 WEEKLY TOTAL: $" ++ PyFloat.format_2f week_total ++ PyStr.nl
  ++ PyStr.repeat_char "=" 50 ++ PyStr.nl
  ++ "```".

(** What one payment adds to the totals and to the days of the members:
    something for a name that is a key, nothing for another name. *)
Definition credit (totals : Dict.t PyFloat.float) (p : payment)
  : Dict.t PyFloat.float :=
  match Dict.get (username p) totals with
  | Some total => Dict.set (username p) (PyFloat.add total (amount p)) totals
  | None => totals
  end.

Definition mark_day (days : Dict.t (list string)) (dp : Z * payment)
  : Dict.t (list string) :=
  match Dict.get (username (snd dp)) days with
  | Some l =>
      Dict.set (username (snd dp))
               (l ++ [PyStr.take 3 (Calendar.day_name (fst dp))])%list days
  | None => days
  end.

(** The ledger without the payments of names that are not in the roster. *)
Definition roster_only (data : ledger) : ledger :=
  {| payments :=
       filter (fun p => str_in (username p) (members data)) (payments data);
     members := members data;
     report_channel := report_channel data |}.

(** How often [pat], which is not empty, occurs in [s]. *)
Fixpoint count_occurrences (pat s : string) : nat :=
  match s with
  | EmptyString => 0
  | String _ s' =>
      (if String.prefix pat s then 1 else 0) + count_occurrences pat s'
  end.

(** What the report reads of a payment. *)
Definition report_view (p : payment) : string * PyFloat.float * string :=
  (username p, amount p, date p).

(** Some member of the roster equals [name] up to case. *)
Definition matches_roster (name : string) (roster : list string) : bool :=
  existsb (fun m => same_name m name) roster.

(** The record that [on_message] builds for a member and an amount. *)
Definition new_payment (now : Calendar.datetime) (author member : string)
    (amount : PyFloat.float) : payment :=
  {| username := member;
     amount := amount;
     date := Calendar.strftime_Y_m_d (Calendar.ordinal now);
     time := Calendar.strftime_H_M_S now;
     day := Calendar.day_name (Calendar.ordinal now);
     recorded_by := author |}.

(** What one line of a batch yields: a record when the line parses and its
    name matches the roster, a warning when it parses and its name does
    not, and nothing when it does not parse. *)
Definition line_record (roster : list string) (now : Calendar.datetime)
    (author line : string) : option payment :=
  match parse_payment_line line roster with
  | (Some name, Some amount) =>
      if matches_roster name roster
      then Some (new_payment now author name amount)
      else None
  | _ => None
  end.

Definition line_warning (roster : list string) (line : string)
  : option string :=
  match parse_payment_line line roster with
  | (Some name, Some _) =>
      if matches_roster name roster then None
      else Some (not_in_member_list name)
  | _ => None
  end.

Definition option_list {A : Type} (o : option A) : list A :=
  match o with
  | Some a => [a]
  | None => []
  end.

Definition batch_records (roster : list string) (now : Calendar.datetime)
    (author : string) (lines : list string) : list payment :=
  flat_map (fun line => option_list (line_record roster now author line)) lines.

Definition batch_warnings (roster : list string) (lines : list string)
  : list string :=
  flat_map (fun line => option_list (line_warning roster line)) lines.

(** The lines of a batch that parse, by whether the name matches. *)
Definition matched_lines (roster : list string) (lines : list string)
  : list string :=
  filter (fun line =>
            match parse_payment_line line roster with
            | (Some name, Some _) => matches_roster name roster
            | _ => false
            end) lines.

Definition unmatched_lines (roster : list string) (lines : list string)
  : list string :=
  filter (fun line =>
            match parse_payment_line line roster with
            | (Some name, Some _) => negb (matches_roster name roster)
            | _ => false
            end) lines.

(** The lines of a message. *)
Definition message_lines (content : string) : list string :=
  PyStr.split_on (ascii_of_nat 10) (PyStr.strip content).

(** [data["payments"].extend(ps)] *)
Definition append_payments (data : ledger) (ps : list payment) : ledger :=
  {| payments := (payments data ++ ps)%list;
     members := members data;
     report_channel := report_channel data |}.

(** The roster is as [setup] and [addmember] write it: in lower case. *)
Definition roster_lowercase (roster : list string) : Prop :=
  Forall (fun m => PyStr.lower m = m) roster.

(** A world for the examples: Wednesday 28 October 2026 at noon, John and
    Mary in the roster, no payment yet. *)
Definition wednesday_noon : Calendar.datetime :=
  {| Calendar.ordinal := 739917; Calendar.hour := 12;
     Calendar.minute := 0; Calendar.second := 0 |}.

Definition example_world : World :=
  {| clock := wednesday_noon;
     bot_user := "Shorekeeper";
     data_file :=
       Some {| payments := []; members := ["john"; "mary"];
               report_channel := None |};
     saves := 0;
     outbox := [] |}.

(** Three lines, the second with a name that is not in the roster. *)
Definition example_batch : string :=
  "@john 50 paid" ++ PyStr.nl ++ "@ghost 20" ++ PyStr.nl ++ "@Mary 30.5 paid".

(** A record as [on_message] makes it at [now] for [author]: the name is
    an entry of the roster and is not empty, and the stamps are those of
    [now]. *)
Definition recorded_now (roster : list string) (now : Calendar.datetime)
    (author : string) (p : payment) : Prop :=
  In (username p) roster /\
  username p <> "" /\
  date p = Calendar.strftime_Y_m_d (Calendar.ordinal now) /\
  time p = Calendar.strftime_H_M_S now /\
  day p = Calendar.day_name (Calendar.ordinal now) /\
  recorded_by p = author.

(** The payments of [m] among [ps], and the same with dated payments. *)
Definition payments_of (m : string) (ps : list payment) : list payment :=
  filter (fun p => String.eqb (username p) m) ps.

Definition dated_payments_of (m : string) (dps : list (Z * payment))
  : list (Z * payment) :=
  filter (fun dp => String.eqb (username (snd dp)) m) dps.

(** [day_name[:3]] for the day of a dated payment. *)
Definition day_abbreviation (dp : Z * payment) : string :=
  PyStr.take 3 (Calendar.day_name (fst dp)).

(** Each name once, at the place where it first occurs. *)
Fixpoint first_occurrences (names : list string) : list string :=
  match names with
  | [] => []
  | x :: r => x :: filter (fun y => negb (String.eqb y x)) (first_occurrences r)
  end.

(** The date strings of the days of the reporting week. *)
Definition week_date_strings (now : Calendar.datetime) : list string :=
  map Calendar.strftime_Y_m_d (week_dates now).

(** The ledger without the payments dated outside the reporting week. *)
Definition in_week_only (data : ledger) (now : Calendar.datetime) : ledger :=
  {| payments :=
       filter (fun p => str_in (date p) (week_date_strings now)) (payments data);
     members := members data;
     report_channel := report_channel data |}.

(** ** Histories of commands *)

(** What can happen to the bot: a message in the chat, a command, or the
    clock moving on. *)
Inductive command : Type :=
| Message (author content : string)
| Setup (channel_id : Z) (member1 member2 member3 member4 : string)
| AddMember (name : string)
| RemoveMember (name : string)
| Clear
| Report
| ClockTo (now : Calendar.datetime).

Definition set_clock (now : Calendar.datetime) (w : World) : World :=
  {| clock := now;
     bot_user := bot_user w;
     data_file := data_file w;
     saves := saves w;
     outbox := outbox w |}.

Definition run (c : command) (w : World) : World :=
  match c with
  | Message author content => on_message author content w
  | Setup channel_id m1 m2 m3 m4 => setup channel_id m1 m2 m3 m4 w
  | AddMember name => addmember name w
  | RemoveMember name => removemember name w
  | Clear => clear w
  | Report => report_command w
  | ClockTo now => set_clock now w
  end.

Definition run_all (cs : list command) (w : World) : World :=
  fold_left (fun w c => run c w) cs w.

(** A name as the roster commands store it: in lower case, without [@]. *)
Definition stored_name (m : string) : Prop :=
  PyStr.lower m = m /\ PyStr.contains_char "@" m = false.

(** A payment as the recorder stores it: under a stored name that is not
    empty, dated and named after a collection day. *)
Definition stored_payment (p : payment) : Prop :=
  username p <> "" /\
  stored_name (username p) /\
  exists d,
    (1 <= Calendar.weekday d <= 5)%Z /\
    date p = Calendar.strftime_Y_m_d d /\
    day p = Calendar.day_name d.

Definition stored_ledger (data : ledger) : Prop :=
  Forall stored_name (members data) /\ Forall stored_payment (payments data).

(** ** The summary of the day *)

(** [[m for m in members if m not in paid_users]], where [paid_users] is
    the set of the names of [today_payments]. *)
Definition pending_members (members : list string)
    (today_payments : list payment) : list string :=
  filter (fun m => negb (str_in m (map username today_payments))) members.

(** [', '.join('@' + u for u in pending)] *)
Definition mentions (users : list string) : string :=
  PyStr.join ", " (map (fun u => "@" ++ u) users).

(** The body of [for p in today_payments] in [today], on the pair of
    [response] and [total]. *)
Definition today_line (acc : string * PyFloat.float) (p : payment)
  : string * PyFloat.float :=
  let (response, total) := acc in
  (response ++ "• @" ++ username p ++ ": $" ++ PyFloat.format_2f (amount p)
   ++ PyStr.nl,
   PyFloat.add total (amount p)).

(** The text that the command [/today] sends. *)
Definition today (w : World) : string :=
  let data := load_data w in
  let now := clock w in
  let date_str := Calendar.strftime_Y_m_d (Calendar.ordinal now) in
  let day_name := Calendar.day_name (Calendar.ordinal now) in
  let today_payments :=
    filter (fun p => String.eqb (date p) date_str) (payments data) in
  let response :=
    "📊 **Today's Summary (" ++ day_name ++ ", " ++ date_str ++ ")**"
    ++ PyStr.nl in
  let response := response ++ PyStr.repeat_char "-" 30 ++ PyStr.nl in
  let response :=
    match today_payments with
    | [] => response ++ "No payments recorded today." ++ PyStr.nl
    | _ =>
        let (response, total) :=
          fold_left today_line today_payments (response, PyFloat.zero) in
        let response := response ++ PyStr.repeat_char "-" 30 ++ PyStr.nl in
        response ++ "**Today's Total: $" ++ PyFloat.format_2f total ++ "**"
        ++ PyStr.nl
    end in
  let pending := pending_members (members data) today_payments in
  match pending with
  | [] => response
  | _ => response ++ PyStr.nl ++ "⏳ **Pending:** " ++ mentions pending
  end.

(** The text of the confirmation that [on_message] sends when it has
    recorded payments: [data] is the ledger with them, [members] the
    roster, [recorded_payments] and [errors] what the loop over the lines
    has gathered. *)
Definition confirmation (data : ledger) (members : list string)
    (now : Calendar.datetime) (recorded_payments : list payment)
    (errors : list string) : string :=
  let today_str := Calendar.strftime_Y_m_d (Calendar.ordinal now) in
  let today_payments :=
    filter (fun p => String.eqb (date p) today_str) (payments data) in
  let today_total :=
    fold_left (fun total p => PyFloat.add total (amount p)) today_payments
              PyFloat.zero in
  let pending := pending_members members today_payments in
  let response :=
    match recorded_payments with
    | [p] =>
        "✅ **Payment Recorded!**" ++ PyStr.nl
        ++ "👤 Member: **@" ++ username p ++ "**" ++ PyStr.nl
        ++ "💵 Amount: **$" ++ PyFloat.format_2f (amount p) ++ "**" ++ PyStr.nl
        ++ "📅 " ++ day p ++ ", " ++ date p ++ PyStr.nl ++ PyStr.nl
    | _ =>
        fold_left
          (fun response p =>
             response ++ "• @" ++ username p ++ ": $"
             ++ PyFloat.format_2f (amount p) ++ PyStr.nl)
          recorded_payments
          ("✅ **"
           ++ PyFloat.dec (Z.of_nat (List.length recorded_payments))
           ++ " Payments Recorded!**" ++ PyStr.nl)
        ++ PyStr.nl
    end in
  let response :=
    response ++ "📊 **Today's Total: $" ++ PyFloat.format_2f today_total
    ++ "**" ++ PyStr.nl in
  let response :=
    match pending with
    | [] => response ++ "🎉 All members have paid today!"
    | _ => response ++ "⏳ Pending: " ++ mentions pending
    end in
  match errors with
  | [] => response
  | _ => response ++ PyStr.nl ++ PyStr.nl ++ PyStr.join PyStr.nl errors
  end.

(** The text that [on_message] sends, if any. *)
Definition on_message_text (author content : string) (w : World)
  : option string :=
  let w' := on_message author content w in
  match skipn (List.length (outbox w)) (outbox w') with
  | [CollectionClosed day_name] =>
      Some ("❌ Today is " ++ day_name
            ++ ". Collection is only **Tuesday to Saturday**!")
  | [PaymentsRecorded recorded errors] =>
      Some (confirmation (load_data w') (members (load_data w)) (clock w)
                         recorded errors)
  | [MembersMissing errors] =>
      Some (PyStr.join PyStr.nl errors ++ PyStr.nl ++ PyStr.nl
            ++ "Use `/addmember name` to add members.")
  | _ => None
  end.

(** ** From a date back to its ordinal *)

Section DateOrdinal.

Local Open Scope Z_scope.

(** [datetime._is_leap] *)
Definition is_leap (year : Z) : bool :=
  (year mod 4 =? 0) && (negb (year mod 100 =? 0) || (year mod 400 =? 0)).

(** [datetime._days_before_year] *)
Definition days_before_year (year : Z) : Z :=
  let y := year - 1 in y * 365 + y / 4 - y / 100 + y / 400.

(** [datetime._days_before_month] *)
Definition days_before_month (year month : Z) : Z :=
  nth (Z.to_nat month) Calendar.DAYS_BEFORE_MONTH 0
  + Calendar.b2z ((2 <? month) && is_leap year).

(** [datetime._ymd2ord] *)
Definition ymd2ord (ymd : Z * Z * Z) : Z :=
  let '(year, month, day) := ymd in
  days_before_year year + days_before_month year month + day.

Definition add_years (k : Z) (ymd : Z * Z * Z) : Z * Z * Z :=
  let '(year, month, day) := ymd in (year + k, month, day).

(** The day [r + 1] of the cycle of 400 years: its year, month and day
    are in range and [ymd2ord] takes them back to [r + 1]. *)
Definition cycle_day_ok (r : Z) : bool :=
  let '(y, m, d) := Calendar.ord2ymd (r + 1) in
  (1 <=? y) && (y <=? 400) && (1 <=? m) && (m <=? 12) && (1 <=? d) && (d <=? 31)
  && (ymd2ord (y, m, d) =? r + 1).

Fixpoint cycle_days_ok (fuel : nat) (r : Z) : bool :=
  match fuel with
  | O => true
  | S k => cycle_day_ok r && cycle_days_ok k (r + 1)
  end.

Definition two_digits_distinct (a b : Z) : bool :=
  (a =? b) || negb (String.eqb (PyFloat.two_digits a) (PyFloat.two_digits b)).

End DateOrdinal.

(** * Properties *)

(** ** The calendar *)

(** Replaces the closed conditions of the [if]s of the goal by their
    values. *)
Ltac decide_conditions :=
  repeat match goal with
    | |- context [if ?c then _ else _] =>
        let v := eval compute in c in change c with v; cbv iota
    end.

Section CalendarFacts.

Import Calendar.
Local Open Scope Z_scope.

Lemma weekday_range (d : Z) : 0 <= weekday d < 7.
Proof. unfold weekday. apply Z.mod_pos_bound. lia. Qed.

(** Going back [k] days moves the weekday back by [k], modulo 7. *)
Lemma weekday_shift (d k : Z) : weekday (d + k) = (weekday d + k) mod 7.
Proof.
  unfold weekday.
  replace (d + k + 6) with ((d + 6) + k) by lia.
  now rewrite Zplus_mod_idemp_l.
Qed.

Lemma weekday_cases (d : Z) :
  weekday d = 0 \/ weekday d = 1 \/ weekday d = 2 \/ weekday d = 3 \/
  weekday d = 4 \/ weekday d = 5 \/ weekday d = 6.
Proof. pose proof (weekday_range d). lia. Qed.

Lemma week_saturday (now : datetime) :
  snd (get_week_range now) = fst (get_week_range now) + 4.
Proof. reflexivity. Qed.

(** The first day of the reporting week is a Tuesday. *)
Lemma week_tuesday (now : datetime) : weekday (fst (get_week_range now)) = 1.
Proof.
  unfold get_week_range. cbn [fst]. set (D := ordinal now).
  destruct (weekday_cases D) as [H|[H|[H|[H|[H|[H|H]]]]]];
    rewrite H;
    decide_conditions;
    unfold weekday in *; Z.div_mod_to_equations; lia.
Qed.

End CalendarFacts.

(** C8.  [is_collection_day] holds exactly on Tuesday (1) to Saturday (5)
    and fails on Monday (0) and Sunday (6); [is_report_day] holds exactly
    on Sunday. *)
Theorem collection_and_report_days (now : Calendar.datetime) :
  let wd := Calendar.weekday (Calendar.ordinal now) in
  let name := Calendar.day_name (Calendar.ordinal now) in
  (Calendar.is_collection_day now = true <->
     (wd = 1 \/ wd = 2 \/ wd = 3 \/ wd = 4 \/ wd = 5)%Z) /\
  (Calendar.is_collection_day now = true <->
     In name ["Tuesday"; "Wednesday"; "Thursday"; "Friday"; "Saturday"]) /\
  (Calendar.is_collection_day now = false <->
     In name ["Monday"; "Sunday"]) /\
  (Calendar.is_report_day now = true <-> wd = 6%Z) /\
  (Calendar.is_report_day now = true <-> name = "Sunday").
Proof.
  unfold Calendar.is_collection_day, Calendar.is_report_day,
    Calendar.day_name.
  destruct (weekday_cases (Calendar.ordinal now)) as [H|[H|[H|[H|[H|[H|H]]]]]];
    rewrite H; cbn; repeat split; intros; try lia; try discriminate;
    try reflexivity; intuition (try discriminate; try lia).
Qed.

(** C2.  [get_week_range] returns a Tuesday and the Saturday four days
    later: five and one days back on a Sunday, [weekday - 1] days back from
    Tuesday to Saturday (so one day back and three ahead on a Wednesday),
    six and two days back on a Monday. *)
Theorem get_week_range_spec (now : Calendar.datetime) :
  let D := Calendar.ordinal now in
  let wd := Calendar.weekday D in
  let tuesday := fst (Calendar.get_week_range now) in
  let saturday := snd (Calendar.get_week_range now) in
  (saturday = tuesday + 4 /\
   (wd = 6 -> tuesday = D - 5 /\ saturday = D - 1) /\
   (1 <= wd <= 5 -> tuesday = D - (wd - 1)) /\
   (wd = 2 -> tuesday = D - 1 /\ saturday = D + 3) /\
   (wd = 0 -> tuesday = D - 6 /\ saturday = D - 2) /\
   Calendar.weekday tuesday = 1 /\ Calendar.weekday saturday = 5)%Z.
Proof.
  cbv zeta. unfold Calendar.get_week_range. cbn [fst snd].
  set (D := Calendar.ordinal now).
  destruct (weekday_cases D) as [H|[H|[H|[H|[H|[H|H]]]]]];
    rewrite H;
    decide_conditions;
    repeat split; intros; try lia;
    unfold Calendar.weekday in *; Z.div_mod_to_equations; lia.
Qed.

(** A Wednesday, 28 October 2026: the week runs from the day before to
    three days after. *)
Lemma get_week_range_spec_witness :
  Calendar.get_week_range
    {| Calendar.ordinal := 739917; Calendar.hour := 12;
       Calendar.minute := 0; Calendar.second := 0 |}
  = (739916, 739920)%Z.
Proof.
  pose proof (get_week_range_spec
                {| Calendar.ordinal := 739917; Calendar.hour := 12;
                   Calendar.minute := 0; Calendar.second := 0 |}) as H.
  cbv zeta in H.
  destruct H as (Hsat & _ & _ & Hwed & _).
  destruct (Hwed eq_refl) as [Ht Hs].
  rewrite (surjective_pairing (Calendar.get_week_range _)), Ht, Hs.
  reflexivity.
Defined.

(** ** Strings *)

Section StringFacts.

Lemma lower_char_not_upper (c : ascii) : not_upper (PyStr.lower_char c) = true.
Proof. destruct c as [[] [] [] [] [] [] [] []]; reflexivity. Qed.

Lemma lower_char_fixed (c : ascii) : not_upper c = true -> PyStr.lower_char c = c.
Proof.
  unfold not_upper, PyStr.lower_char. now destruct (PyStr.isupper c).
Qed.

Lemma all_chars_lower (s : string) : all_chars not_upper (PyStr.lower s) = true.
Proof.
  induction s as [|c s IH]; cbn; [reflexivity|].
  now rewrite lower_char_not_upper.
Qed.

Lemma lower_fixed (s : string) : all_chars not_upper s = true -> PyStr.lower s = s.
Proof.
  induction s as [|c s IH]; cbn; [reflexivity|].
  intros [Hc Hs]%andb_prop. now rewrite lower_char_fixed, IH.
Qed.

Lemma lower_idempotent (s : string) : PyStr.lower (PyStr.lower s) = PyStr.lower s.
Proof. apply lower_fixed, all_chars_lower. Qed.

Variable p : ascii -> bool.

Lemma all_chars_app (s t : string) :
  all_chars p (s ++ t) = all_chars p s && all_chars p t.
Proof.
  induction s as [|c s IH]; cbn; [reflexivity|].
  now rewrite IH, andb_assoc.
Qed.

Lemma all_chars_lstrip (s : string) :
  all_chars p s = true -> all_chars p (PyStr.lstrip s) = true.
Proof.
  induction s as [|c s IH]; cbn; [reflexivity|].
  intros H. destruct (PyStr.isspace c); [|exact H].
  apply andb_prop in H. now apply IH.
Qed.

Lemma all_chars_rstrip (s : string) :
  all_chars p s = true -> all_chars p (PyStr.rstrip s) = true.
Proof.
  induction s as [|c s IH]; cbn; [reflexivity|].
  intros [Hc Hs]%andb_prop. specialize (IH Hs).
  destruct (PyStr.rstrip s) as [|d r].
  - destruct (PyStr.isspace c); cbn; [reflexivity|]. now rewrite Hc.
  - cbn in *. now rewrite Hc.
Qed.

Lemma all_chars_strip (s : string) :
  all_chars p s = true -> all_chars p (PyStr.strip s) = true.
Proof. intros H. now apply all_chars_rstrip, all_chars_lstrip. Qed.

Lemma all_chars_remove_from (old : string) (s : string) :
  forall skip, all_chars p s = true ->
               all_chars p (PyStr.remove_from old skip s) = true.
Proof.
  induction s as [|c s IH]; intros skip H; [reflexivity|].
  cbn [all_chars] in H. apply andb_prop in H as [Hc Hs].
  cbn [PyStr.remove_from]. destruct skip as [|k]; [|now apply IH].
  destruct (String.prefix old (String c s)); [now apply IH|].
  cbn. now rewrite Hc, IH.
Qed.

Lemma all_chars_remove (old s : string) :
  all_chars p s = true -> all_chars p (PyStr.remove old s) = true.
Proof. apply all_chars_remove_from. Qed.

Lemma all_chars_split_from (s : string) :
  forall cur, all_chars p cur = true -> all_chars p s = true ->
    Forall (fun t => all_chars p t = true) (PyStr.split_from cur s).
Proof.
  induction s as [|c s IH]; intros cur Hcur H; cbn [PyStr.split_from].
  - destruct cur; constructor; auto.
  - cbn [all_chars] in H. apply andb_prop in H as [Hc Hs].
    destruct (PyStr.isspace c).
    + destruct cur; [now apply IH|].
      constructor; [exact Hcur|now apply IH].
    + apply IH; [|exact Hs]. rewrite all_chars_app, Hcur. cbn.
      now rewrite Hc.
Qed.

Lemma all_chars_split (s : string) :
  all_chars p s = true -> Forall (fun t => all_chars p t = true) (PyStr.split s).
Proof. now apply all_chars_split_from. Qed.

Lemma all_chars_split_on_from (sep : ascii) (s : string) :
  forall cur, all_chars p cur = true -> all_chars p s = true ->
    Forall (fun t => all_chars p t = true) (PyStr.split_on_from sep cur s).
Proof.
  induction s as [|c s IH]; intros cur Hcur H; cbn [PyStr.split_on_from].
  - now constructor.
  - cbn [all_chars] in H. apply andb_prop in H as [Hc Hs].
    destruct (Ascii.eqb c sep).
    + constructor; [exact Hcur|now apply IH].
    + apply IH; [|exact Hs]. rewrite all_chars_app, Hcur. cbn.
      now rewrite Hc.
Qed.

Lemma all_chars_join (parts : list string) :
  p " "%char = true ->
  Forall (fun t => all_chars p t = true) parts ->
  all_chars p (PyStr.join " " parts) = true.
Proof.
  intros Hsp H. unfold PyStr.join.
  induction H as [|t parts Ht Hparts IH]; [reflexivity|].
  cbn [String.concat]. destruct parts as [|u parts]; [exact Ht|].
  rewrite all_chars_app, Ht. cbn [all_chars append]. now rewrite Hsp, IH.
Qed.

Lemma all_chars_tail (s : string) :
  all_chars p s = true -> all_chars p (PyStr.tail s) = true.
Proof. destruct s; cbn; [reflexivity|]. now intros [_ H]%andb_prop. Qed.

End StringFacts.

Section StripFacts.

Lemma rstrip_keeps_head (c : ascii) (s : string) :
  PyStr.isspace c = false ->
  PyStr.rstrip (String c s) = String c (PyStr.rstrip s).
Proof. intros Hc. cbn. rewrite Hc. now destruct (PyStr.rstrip s). Qed.

Lemma rstrip_idempotent (s : string) :
  PyStr.rstrip (PyStr.rstrip s) = PyStr.rstrip s.
Proof.
  induction s as [|c s IH]; [reflexivity|].
  cbn. destruct (PyStr.rstrip s) as [|d r] eqn:E.
  - destruct (PyStr.isspace c) eqn:Hc; [reflexivity|]. cbn. now rewrite Hc.
  - change (PyStr.rstrip (String c (String d r)))
      with (match PyStr.rstrip (String d r) with
            | EmptyString =>
                if PyStr.isspace c then EmptyString else String c EmptyString
            | r' => String c r'
            end).
    now rewrite IH.
Qed.

Lemma lstrip_cases (s : string) :
  PyStr.lstrip s = EmptyString \/
  exists c t, PyStr.lstrip s = String c t /\ PyStr.isspace c = false.
Proof.
  induction s as [|c s IH]; cbn; [now left|].
  destruct (PyStr.isspace c) eqn:Hc; [exact IH|].
  right. now exists c, s.
Qed.

Lemma strip_idempotent (s : string) :
  PyStr.strip (PyStr.strip s) = PyStr.strip s.
Proof.
  unfold PyStr.strip.
  destruct (lstrip_cases s) as [E|(c & t & E & Hc)]; rewrite E.
  - reflexivity.
  - rewrite (rstrip_keeps_head c t Hc). cbn [PyStr.lstrip]. rewrite Hc.
    rewrite <- (rstrip_keeps_head c t Hc). apply rstrip_idempotent.
Qed.

Lemma lower_char_at (c : ascii) : PyStr.lower_char c = "@"%char -> c = "@"%char.
Proof.
  destruct c as [[] [] [] [] [] [] [] []]; cbv; intros H;
    first [reflexivity | discriminate H].
Qed.

Lemma startswith_at (s : string) :
  PyStr.startswith "@" s = true <-> exists t, s = String "@" t.
Proof.
  unfold PyStr.startswith. split.
  - destruct s as [|c s]; cbn [String.prefix]; [easy|].
    destruct (ascii_dec "@" c) as [<-|]; [|easy].
    intros _. now exists s.
  - intros [t ->]. cbn [String.prefix].
    destruct (ascii_dec "@" "@"); [now destruct t|congruence].
Qed.

Lemma startswith_at_lower (s : string) :
  PyStr.startswith "@" (PyStr.lower s) = PyStr.startswith "@" s.
Proof.
  destruct (PyStr.startswith "@" s) eqn:E.
  - apply startswith_at in E as [t ->]. apply startswith_at.
    now exists (PyStr.lower t).
  - destruct (PyStr.startswith "@" (PyStr.lower s)) eqn:F; [|reflexivity].
    apply startswith_at in F as [t F]. destruct s as [|c s]; [discriminate|].
    cbn in F. injection F as Hc Ht. apply lower_char_at in Hc. subst c.
    rewrite <- E. symmetry. apply startswith_at. now exists s.
Qed.

Lemma remove_space_paid_keeps_at (s : string) :
  PyStr.remove " paid" (String "@" s) = String "@" (PyStr.remove " paid" s).
Proof. reflexivity. Qed.

Lemma remove_paid_keeps_at (s : string) :
  PyStr.remove "paid" (String "@" s) = String "@" (PyStr.remove "paid" s).
Proof. reflexivity. Qed.

Lemma split_from_head (s : string) :
  forall cur, cur <> EmptyString ->
    exists t rest, PyStr.split_from cur s = (cur ++ t) :: rest.
Proof.
  induction s as [|c s IH]; intros cur Hcur; cbn [PyStr.split_from].
  - destruct cur; [contradiction|]. exists EmptyString, [].
    f_equal. clear. generalize (String a cur). intros u.
    induction u; cbn; congruence.
  - destruct (PyStr.isspace c).
    + destruct cur; [contradiction|]. exists EmptyString. eexists.
      f_equal. generalize (String a cur). intros u.
      induction u; cbn; congruence.
    + destruct (IH (cur ++ String c EmptyString)) as (t & rest & E).
      { destruct cur; discriminate. }
      exists (String c t), rest. rewrite E. f_equal.
      clear. induction cur; cbn; congruence.
Qed.

Lemma split_at_head (s : string) :
  exists t rest, PyStr.split (String "@" s) = String "@" t :: rest.
Proof.
  unfold PyStr.split. cbn [PyStr.split_from].
  change (PyStr.isspace "@") with false. cbv iota.
  destruct (split_from_head s (String "@" EmptyString)) as (t & rest & E);
    [discriminate|].
  exists t, rest. exact E.
Qed.

(** The first token of a line that starts with [@] starts with [@]. *)
Lemma tokens_head (line : string) :
  PyStr.startswith "@" (PyStr.lower (PyStr.strip line)) = true ->
  exists t rest, tokens line = String "@" t :: rest.
Proof.
  intros [u E]%startswith_at. unfold tokens. rewrite E.
  rewrite remove_space_paid_keeps_at, remove_paid_keeps_at.
  apply split_at_head.
Qed.

Lemma join_head (t : string) (parts : list string) :
  exists u, PyStr.join " " (String "@" t :: parts) = String "@" u.
Proof.
  unfold PyStr.join. cbn [String.concat].
  destruct parts; cbn; eauto.
Qed.

(** The tokens of a line have no upper-case letter. *)
Lemma tokens_lowercase (line : string) :
  Forall (fun t => all_chars not_upper t = true) (tokens line).
Proof.
  unfold tokens.
  apply all_chars_split, all_chars_remove, all_chars_remove, all_chars_lower.
Qed.

End StripFacts.

(** ** The line parser *)

Section ParserFacts.

(** What the loop of [parse_payment_line] finds: the largest index, from
    [n] down to 1, whose token is a number. *)
Lemma scan_amount_some (parts : list string) (n : nat) (x : PyFloat.float) (i : nat) :
  scan_amount parts n = Some (x, i) <->
  (1 <= i <= n)%nat /\
  PyFloat.of_string (nth i parts "") = Some x /\
  forall j, (i < j <= n)%nat -> PyFloat.of_string (nth j parts "") = None.
Proof.
  induction n as [|k IH].
  - cbn. split; [discriminate|]. intros [H _]. lia.
  - cbn [scan_amount].
    destruct (PyFloat.of_string (nth (S k) parts "")) as [a|] eqn:E.
    + split.
      * intros [= <- <-]. repeat split; try lia; exact E.
      * intros (Hi & Hx & Hj).
        destruct (Nat.eq_dec i (S k)) as [->|Hne].
        -- congruence.
        -- rewrite (Hj (S k)) in E by lia. discriminate.
    + rewrite IH. split.
      * intros (Hi & Hx & Hj). repeat split; try lia; [exact Hx|].
        intros j Hij. destruct (Nat.eq_dec j (S k)) as [->|Hne];
          [exact E|apply Hj; lia].
      * intros (Hi & Hx & Hj).
        assert (i <> S k) by (intros ->; congruence).
        repeat split; try lia; [exact Hx|]. intros j Hij. apply Hj. lia.
Qed.

Lemma scan_amount_none (parts : list string) (n : nat) :
  scan_amount parts n = None <->
  forall j, (1 <= j <= n)%nat -> PyFloat.of_string (nth j parts "") = None.
Proof.
  induction n as [|k IH].
  - cbn. split; [intros _ j Hj; lia|reflexivity].
  - cbn [scan_amount].
    destruct (PyFloat.of_string (nth (S k) parts "")) as [a|] eqn:E.
    + split; [discriminate|]. intros H. rewrite (H (S k)) in E by lia.
      discriminate.
    + rewrite IH. split.
      * intros H j Hj. destruct (Nat.eq_dec j (S k)) as [->|Hne];
          [exact E|apply H; lia].
      * intros H j Hj. apply H. lia.
Qed.

(** [parse_payment_line] in terms of the tokens of the line. *)
Lemma parse_payment_line_unfold (line : string) (members : list string) :
  parse_payment_line line members =
  if negb (PyStr.startswith "@" (PyStr.lower (PyStr.strip line)))
  then (None, None)
  else if (List.length (tokens line) <? 2)%nat then (None, None)
  else
    match scan_amount (tokens line) (List.length (tokens line) - 1) with
    | None => (None, None)
    | Some (amount, i) =>
        (Some (resolve members
                 (PyStr.tail (PyStr.join " " (firstn i (tokens line))))),
         Some amount)
    end.
Proof.
  unfold parse_payment_line, resolve. fold (tokens line).
  destruct (negb _); [reflexivity|].
  destruct (_ <? _)%nat; [reflexivity|].
  destruct (scan_amount _ _) as [[a i]|]; [|reflexivity].
  now destruct (find _ _).
Qed.

(** The tokens before the amount, joined, are [@] and the candidate. *)
Lemma candidate_after_at (line : string) (i : nat) :
  PyStr.startswith "@" (PyStr.lower (PyStr.strip line)) = true ->
  (1 <= i)%nat ->
  PyStr.join " " (firstn i (tokens line))
  = String "@" (PyStr.tail (PyStr.join " " (firstn i (tokens line)))).
Proof.
  intros Hat Hi. destruct (tokens_head line Hat) as (t & rest & E).
  rewrite E. destruct i as [|k]; [lia|]. cbn [firstn].
  destruct (join_head t (firstn k rest)) as [u Hu]. now rewrite Hu.
Qed.

Lemma Forall_firstn {A : Type} (P : A -> Prop) (l : list A) :
  Forall P l -> forall n, Forall P (firstn n l).
Proof.
  induction 1 as [|a l Ha Hl IH]; intros [|n]; cbn; constructor; auto.
Qed.

Lemma candidate_lowercase (line : string) (i : nat) :
  let candidate := PyStr.tail (PyStr.join " " (firstn i (tokens line))) in
  PyStr.lower candidate = candidate.
Proof.
  cbv zeta. apply lower_fixed, all_chars_tail, all_chars_join; [reflexivity|].
  apply Forall_firstn. apply tokens_lowercase.
Qed.

Lemma find_first {A : Type} (f : A -> bool) (l : list A) (x : A) :
  find f l = Some x ->
  exists pre post, l = (pre ++ x :: post)%list /\ f x = true /\
                   forall y, In y pre -> f y = false.
Proof.
  induction l as [|a l IH]; cbn; [discriminate|].
  destruct (f a) eqn:E.
  - intros [= ->]. exists [], l. repeat split; [exact E|]. intros y [].
  - intros H. destruct (IH H) as (pre & post & -> & Hx & Hpre).
    exists (a :: pre), post. repeat split; [exact Hx|].
    intros y [<-|Hy]; [exact E|now apply Hpre].
Qed.

End ParserFacts.



(** C10.  [parse_payment_line] returns [(None, None)] or a name together
    with an amount; the name can be empty, as for the line "@ 50". *)
Theorem parse_payment_line_both_or_neither (line : string) (members : list string) :
  (parse_payment_line line members = (None, None) \/
   exists name amount,
     parse_payment_line line members = (Some name, Some amount)) /\
  parse_payment_line "@ 50" ["john"]
  = (Some "", Some (PyFloat.of_decimal false 50 0)).
Proof.
  split; [|reflexivity].
  rewrite parse_payment_line_unfold.
  destruct (negb _); [now left|].
  destruct (_ <? _)%nat; [now left|].
  destruct (scan_amount _ _) as [[a i]|]; [|now left].
  right. eauto.
Qed.



(** ** Dictionaries *)

Section DictFacts.

Context {V : Type}.
Implicit Types (d : Dict.t V) (k : string) (v : V).

Lemma get_set_same k v d : Dict.get k (Dict.set k v d) = Some v.
Proof.
  induction d as [|[k' v'] r IH]; cbn.
  - now rewrite String.eqb_refl.
  - destruct (String.eqb k' k) eqn:E; cbn; now rewrite E.
Qed.

Lemma get_set_other k k' v d :
  k <> k' -> Dict.get k' (Dict.set k v d) = Dict.get k' d.
Proof.
  intros Hne. induction d as [|[k0 v0] r IH]; cbn.
  - apply String.eqb_neq in Hne. now rewrite Hne.
  - destruct (String.eqb k0 k) eqn:E; cbn; [|now rewrite IH].
    apply String.eqb_eq in E. subst k0.
    apply String.eqb_neq in Hne. now rewrite Hne.
Qed.

Lemma keys_set_present k v d :
  Dict.get k d <> None -> Dict.keys (Dict.set k v d) = Dict.keys d.
Proof.
  induction d as [|[k0 v0] r IH]; cbn; [congruence|].
  destruct (String.eqb k0 k); cbn; [reflexivity|].
  intros H. f_equal. now apply IH.
Qed.

Lemma get_in_keys k d : Dict.get k d <> None <-> In k (Dict.keys d).
Proof.
  induction d as [|[k0 v0] r IH]; cbn; [tauto|].
  destruct (String.eqb_spec k0 k) as [->|Hne].
  - split; [now left|congruence].
  - rewrite IH. split; [now right|]. now intros [H|H].
Qed.

Lemma in_keys_set k k' v d :
  In k' (Dict.keys (Dict.set k v d)) <-> k' = k \/ In k' (Dict.keys d).
Proof.
  induction d as [|[k0 v0] r IH]; cbn.
  - intuition congruence.
  - destruct (String.eqb_spec k0 k) as [->|Hne]; cbn.
    + intuition congruence.
    + rewrite IH. tauto.
Qed.

Lemma in_keys_from_keys (ks : list string) v k :
  In k (Dict.keys (Dict.from_keys ks v)) <-> In k ks.
Proof.
  unfold Dict.from_keys.
  assert (G : forall d0,
             In k (Dict.keys (fold_left (fun d k => Dict.set k v d) ks d0))
             <-> In k ks \/ In k (Dict.keys d0)).
  { induction ks as [|a ks IH]; intros d0; cbn [fold_left].
    - cbn. tauto.
    - rewrite IH, in_keys_set. cbn. intuition congruence. }
  rewrite G. cbn. tauto.
Qed.

Lemma set_constant k v d :
  Forall (fun e => snd e = v) d -> Forall (fun e => snd e = v) (Dict.set k v d).
Proof.
  induction 1 as [|[k0 v0] r H0 Hr IH]; cbn.
  - now repeat constructor.
  - destruct (String.eqb k0 k); constructor; auto.
Qed.

Lemma from_keys_constant (ks : list string) v :
  Dict.from_keys ks v = map (fun k => (k, v)) (Dict.keys (Dict.from_keys ks v)).
Proof.
  assert (G : Forall (fun e => snd e = v) (Dict.from_keys ks v)).
  { unfold Dict.from_keys. generalize (@Forall_nil _ (fun e : string * V => snd e = v)).
    generalize (@nil (string * V)) as d0.
    induction ks as [|a ks IH]; intros d0 H0; cbn [fold_left]; [exact H0|].
    apply IH. now apply set_constant. }
  induction G as [|[k0 v0] r H0 Hr IH]; cbn; [reflexivity|].
  cbn in H0. subst v0. f_equal. exact IH.
Qed.

Lemma get_from_keys (ks : list string) v k :
  In k ks -> Dict.get k (Dict.from_keys ks v) = Some v.
Proof.
  intros Hin. apply (in_keys_from_keys ks v k) in Hin.
  rewrite from_keys_constant. revert Hin.
  induction (Dict.keys (Dict.from_keys ks v)) as [|a l IH]; cbn; [tauto|].
  destruct (String.eqb_spec a k) as [->|Hne]; [reflexivity|].
  intros [H|H]; [congruence|now apply IH].
Qed.

End DictFacts.

Lemma keys_set_parallel {V W : Type} (k : string) (v : V) (w : W)
    (d : Dict.t V) (e : Dict.t W) :
  Dict.keys d = Dict.keys e ->
  Dict.keys (Dict.set k v d) = Dict.keys (Dict.set k w e).
Proof.
  revert e. induction d as [|[k0 v0] r IH]; intros [|[k1 w1] e]; cbn;
    try discriminate; [reflexivity|].
  intros [= <- H]. destruct (String.eqb k0 k); cbn; [now f_equal|].
  f_equal. now apply IH.
Qed.

Lemma keys_from_keys_parallel {V W : Type} (ks : list string) (v : V) (w : W) :
  Dict.keys (Dict.from_keys ks v) = Dict.keys (Dict.from_keys ks w).
Proof.
  unfold Dict.from_keys.
  assert (G : forall (d : Dict.t V) (e : Dict.t W),
             Dict.keys d = Dict.keys e ->
             Dict.keys (fold_left (fun d k => Dict.set k v d) ks d)
             = Dict.keys (fold_left (fun d k => Dict.set k w d) ks e)).
  { induction ks as [|a ks IH]; intros d e H; cbn [fold_left]; [exact H|].
    apply IH. now apply keys_set_parallel. }
  now apply G.
Qed.

Lemma get_none_parallel {V W : Type} (k : string) (d : Dict.t V) (e : Dict.t W) :
  Dict.keys d = Dict.keys e -> Dict.get k d = None -> Dict.get k e = None.
Proof.
  intros Hk Hd. destruct (Dict.get k e) eqn:He; [|reflexivity].
  assert (Hin : In k (Dict.keys e)) by (apply get_in_keys; congruence).
  rewrite <- Hk in Hin. apply get_in_keys in Hin. contradiction.
Qed.

(** ** The weekly report *)

Section ReportFacts.

Lemma append_assoc (a b c : string) : (a ++ b) ++ c = a ++ b ++ c.
Proof. induction a as [|x a IH]; cbn; [reflexivity|now rewrite IH]. Qed.

Lemma append_nil_r (a : string) : a ++ "" = a.
Proof. induction a as [|x a IH]; cbn; [reflexivity|now rewrite IH]. Qed.

Lemma concat_cons (x : string) (xs : list string) :
  String.concat "" (x :: xs) = x ++ String.concat "" xs.
Proof.
  destruct xs as [|y xs]; cbn [String.concat].
  - now rewrite append_nil_r.
  - reflexivity.
Qed.

Lemma concat_app (xs ys : list string) :
  String.concat "" (xs ++ ys) = String.concat "" xs ++ String.concat "" ys.
Proof.
  induction xs as [|x xs IH]; [reflexivity|].
  change ((x :: xs) ++ ys)%list with (x :: (xs ++ ys))%list.
  now rewrite !concat_cons, IH, append_assoc.
Qed.

Lemma keys_credit (totals : Dict.t PyFloat.float) (p : payment) :
  Dict.keys (credit totals p) = Dict.keys totals.
Proof.
  unfold credit. destruct (Dict.get (username p) totals) eqn:E; [|reflexivity].
  apply keys_set_present. congruence.
Qed.

Lemma keys_mark_day (days : Dict.t (list string)) (dp : Z * payment) :
  Dict.keys (mark_day days dp) = Dict.keys days.
Proof.
  unfold mark_day.
  destruct (Dict.get (username (snd dp)) days) eqn:E; [|reflexivity].
  apply keys_set_present. congruence.
Qed.

Lemma keys_fold_credit (ps : list payment) (totals : Dict.t PyFloat.float) :
  Dict.keys (fold_left credit ps totals) = Dict.keys totals.
Proof.
  revert totals.
  induction ps as [|p ps IH]; intros totals; cbn [fold_left]; [reflexivity|].
  now rewrite IH, keys_credit.
Qed.

Lemma keys_fold_mark_day (dps : list (Z * payment)) (days : Dict.t (list string)) :
  Dict.keys (fold_left mark_day dps days) = Dict.keys days.
Proof.
  revert days.
  induction dps as [|p ps IH]; intros days; cbn [fold_left]; [reflexivity|].
  now rewrite IH, keys_mark_day.
Qed.

(** One turn of the loop over the payments of a day. *)
Lemma report_payment_step (d : Z) (daily_total : PyFloat.float)
    (st : report_state) (p : payment) :
  Dict.keys (member_totals st) = Dict.keys (member_days st) ->
  report_payment (Calendar.day_name d) (daily_total, st) p
  = (PyFloat.add daily_total (amount p),
     {| report := report st ++ payment_line p;
        week_total := PyFloat.add (week_total st) (amount p);
        member_totals := credit (member_totals st) p;
        member_days := mark_day (member_days st) (d, p) |}).
Proof.
  intros Hkeys. unfold report_payment, credit, mark_day, payment_line.
  cbn [fst snd].
  destruct (Dict.get (username p) (member_totals st)) eqn:E; [reflexivity|].
  now rewrite (get_none_parallel _ _ _ Hkeys E).
Qed.

Lemma fold_report_payment (d : Z) (ps : list payment) :
  forall (daily_total : PyFloat.float) (st : report_state),
    Dict.keys (member_totals st) = Dict.keys (member_days st) ->
    fold_left (report_payment (Calendar.day_name d)) ps (daily_total, st)
    = (sum_amounts daily_total ps,
       {| report := report st ++ String.concat "" (map payment_line ps);
          week_total := sum_amounts (week_total st) ps;
          member_totals := fold_left credit ps (member_totals st);
          member_days := fold_left mark_day (map (pair d) ps) (member_days st) |}).
Proof.
  induction ps as [|p ps IH]; intros daily_total st Hkeys.
  - cbn. rewrite append_nil_r. now destruct st.
  - cbn [fold_left]. rewrite report_payment_step by exact Hkeys.
    rewrite IH by (cbn [member_totals member_days]; now rewrite keys_credit, keys_mark_day).
    cbn [report week_total member_totals member_days map].
    now rewrite concat_cons, append_assoc.
Qed.

(** One turn of the loop over the dates. *)
Lemma report_day_eq (data : ledger) (d : Z) (st : report_state) :
  Dict.keys (member_totals st) = Dict.keys (member_days st) ->
  report_day data d st
  = {| report := report st ++ day_section data d;
       week_total := sum_amounts (week_total st) (day_payments data d);
       member_totals := fold_left credit (day_payments data d) (member_totals st);
       member_days :=
         fold_left mark_day (map (pair d) (day_payments data d)) (member_days st) |}.
Proof.
  intros Hkeys. unfold report_day, day_section.
  fold (day_payments data d). fold (day_heading d).
  destruct (day_payments data d) as [|p ps] eqn:E.
  - cbn [report week_total member_totals member_days]. cbn.
    unfold no_payments_day. now rewrite append_assoc.
  - rewrite fold_report_payment by exact Hkeys.
    cbn [report week_total member_totals member_days].
    now rewrite !append_assoc.
Qed.

Lemma report_days_eq (data : ledger) (saturday : Z) (n : nat) :
  forall (fuel : nat) (d : Z) (st : report_state),
    (n < fuel)%nat ->
    saturday = (d + Z.of_nat n - 1)%Z ->
    Dict.keys (member_totals st) = Dict.keys (member_days st) ->
    report_days fuel data saturday d st
    = {| report :=
           report st ++ String.concat "" (map (day_section data) (dates_from d n));
         week_total :=
           sum_amounts (week_total st)
                       (flat_map (day_payments data) (dates_from d n));
         member_totals :=
           fold_left credit (flat_map (day_payments data) (dates_from d n))
                     (member_totals st);
         member_days :=
           fold_left mark_day
                     (flat_map (fun d => map (pair d) (day_payments data d))
                               (dates_from d n))
                     (member_days st) |}.
Proof.
  induction n as [|n IH]; intros [|fuel] d st Hfuel Hsat Hkeys; try lia;
    cbn [report_days].
  - destruct (Z.leb_spec d saturday) as [Hle|_]; [lia|].
    cbn. rewrite append_nil_r. now destruct st.
  - destruct (Z.leb_spec d saturday) as [_|Hlt]; [|lia].
    cbn [dates_from map flat_map].
    rewrite report_day_eq by exact Hkeys.
    rewrite IH
      by (try lia; cbn [member_totals member_days];
          now rewrite keys_fold_credit, keys_fold_mark_day).
    cbn [report week_total member_totals member_days].
    unfold sum_amounts. rewrite !fold_left_app, concat_cons, append_assoc.
    reflexivity.
Qed.

(** The loop over the dates stops by its condition: fuel beyond the number
    of dates plus one is not used. *)
Lemma report_days_fuel (data : ledger) (saturday d : Z) (st : report_state)
    (fuel : nat) :
  Dict.keys (member_totals st) = Dict.keys (member_days st) ->
  (Z.to_nat (saturday - d + 1) < fuel)%nat ->
  report_days fuel data saturday d st
  = report_days (S (Z.to_nat (saturday - d + 1))) data saturday d st.
Proof.
  intros Hkeys Hfuel.
  destruct (Z.le_gt_cases d (saturday + 1)) as [Hle|Hgt].
  - rewrite !(report_days_eq data saturday (Z.to_nat (saturday - d + 1)));
      try lia; auto.
  - replace (Z.to_nat (saturday - d + 1)) with 0%nat in * by lia.
    destruct fuel as [|fuel]; [lia|]. cbn [report_days].
    destruct (Z.leb_spec d saturday); [lia|reflexivity].
Qed.

Lemma week_length (now : Calendar.datetime) :
  Z.to_nat (snd (Calendar.get_week_range now)
            - fst (Calendar.get_week_range now) + 1) = 5%nat.
Proof.
  rewrite week_saturday.
  replace (_ + 4 - _ + 1)%Z with 5%Z by ring. reflexivity.
Qed.

(** The state at the end of the daily breakdown. *)
Lemma daily_breakdown_eq (data : ledger) (now : Calendar.datetime) :
  daily_breakdown data now
  = {| report :=
         report_header (fst (Calendar.get_week_range now))
                       (snd (Calendar.get_week_range now))
         ++ String.concat "" (map (day_section data) (week_dates now));
       week_total := sum_amounts PyFloat.zero (week_payments data now);
       member_totals :=
         fold_left credit (week_payments data now)
                   (Dict.from_keys (members data) PyFloat.zero);
       member_days :=
         fold_left mark_day (week_dated_payments data now)
                   (Dict.from_keys (members data) []) |}.
Proof.
  unfold daily_breakdown, week_payments, week_dated_payments, week_dates.
  pose proof (week_length now) as Hlen.
  destruct (Calendar.get_week_range now) as [tuesday saturday] eqn:Hrange.
  cbn [fst snd] in *. rewrite Hlen.
  rewrite (report_days_eq data saturday 5);
    [reflexivity|lia| |apply keys_from_keys_parallel].
  pose proof (week_saturday now) as Hsat. rewrite Hrange in Hsat.
  cbn [fst snd] in Hsat. lia.
Qed.

Lemma fold_summary_line (days : Dict.t (list string))
    (entries : list (string * PyFloat.float)) :
  forall text,
    fold_left (summary_line days) entries text
    = text ++ String.concat "" (map (summary_entry days) entries).
Proof.
  induction entries as [|[member total] entries IH]; intros text.
  - cbn. now rewrite append_nil_r.
  - cbn [fold_left map]. rewrite IH, concat_cons, <- append_assoc.
    reflexivity.
Qed.

(** The text of the report, part by part. *)
Lemma report_layout (data : ledger) (now : Calendar.datetime) :
  let st := daily_breakdown data now in
  generate_weekly_report data now
  = report_header (fst (Calendar.get_week_range now))
                  (snd (Calendar.get_week_range now))
    ++ String.concat "" (map (day_section data) (week_dates now))
    ++ summary_heading
    ++ String.concat "" (map (summary_entry (member_days st)) (member_totals st))
    ++ report_footer (week_total st).
Proof.
  cbv zeta. unfold generate_weekly_report.
  rewrite fold_summary_line.
  rewrite (daily_breakdown_eq data now) at 1.
  cbn [report]. unfold summary_heading, report_footer.
  now rewrite !append_assoc.
Qed.

End ReportFacts.

Section EmptyWeek.

Lemma get_constant {V : Type} (d : Dict.t V) (v : V) (k : string) (x : V) :
  Forall (fun e => snd e = v) d -> Dict.get k d = Some x -> x = v.
Proof.
  induction 1 as [|[k0 v0] r H0 Hr IH]; cbn; [discriminate|].
  destruct (String.eqb k0 k); [|exact IH]. cbn in H0. congruence.
Qed.

Lemma get_from_keys_value {V : Type} (ks : list string) (v : V) (k : string) (x : V) :
  Dict.get k (Dict.from_keys ks v) = Some x -> x = v.
Proof.
  rewrite from_keys_constant. apply get_constant.
  induction (Dict.keys (Dict.from_keys ks v)); constructor; auto.
Qed.

(** The line of the summary for a member without a payment. *)
Lemma summary_entry_unpaid (days : Dict.t (list string)) (member : string) :
  Dict.get member days = Some [] \/ Dict.get member days = None ->
  summary_entry days (member, PyFloat.zero) = unpaid_line member.
Proof. unfold summary_entry, summary_line. now intros [-> | ->]. Qed.

Lemma week_dates_explicit (now : Calendar.datetime) :
  let tuesday := fst (Calendar.get_week_range now) in
  week_dates now
  = [tuesday; tuesday + 1; tuesday + 2; tuesday + 3; tuesday + 4]%Z.
Proof.
  cbv zeta. unfold week_dates. cbn [dates_from].
  repeat (f_equal; try ring).
Qed.

Lemma week_day_names (now : Calendar.datetime) :
  map Calendar.day_name (week_dates now)
  = ["Tuesday"; "Wednesday"; "Thursday"; "Friday"; "Saturday"].
Proof.
  rewrite week_dates_explicit. cbv zeta.
  pose proof (week_tuesday now) as Htue.
  cbn [map]. unfold Calendar.day_name.
  rewrite !weekday_shift, Htue. reflexivity.
Qed.

End EmptyWeek.

(** C1, as the code has it.  With no payment in the ledger, the report
    shows "No payments recorded" under each of the five days from the
    Tuesday to the Saturday of the week, a line at 0.00 with the unpaid
    mark for each member of the roster, and a weekly total of 0.00. *)
Theorem report_without_payments (roster : list string) (channel : option Z)
    (now : Calendar.datetime) :
  let data := {| payments := []; members := roster; report_channel := channel |} in
  let tuesday := fst (Calendar.get_week_range now) in
  let saturday := snd (Calendar.get_week_range now) in
  generate_weekly_report data now
  = report_header tuesday saturday
    ++ String.concat ""
         (map no_payments_day
              [tuesday; tuesday + 1; tuesday + 2; tuesday + 3; saturday]%Z)
    ++ summary_heading
    ++ String.concat ""
         (map unpaid_line (Dict.keys (Dict.from_keys roster PyFloat.zero)))
    ++ report_footer PyFloat.zero
  /\ map Calendar.day_name
         [tuesday; tuesday + 1; tuesday + 2; tuesday + 3; saturday]%Z
     = ["Tuesday"; "Wednesday"; "Thursday"; "Friday"; "Saturday"]
  /\ (forall member,
         In member roster <->
         In member (Dict.keys (Dict.from_keys roster PyFloat.zero)))
  /\ PyFloat.format_2f PyFloat.zero = "0.00"
  /\ forall member, unpaid_line member
                    = "❌ @" ++ member ++ ": $0.00 (Days: None)" ++ PyStr.nl.
Proof.
  cbv zeta.
  assert (Hsat : snd (Calendar.get_week_range now)
                 = (fst (Calendar.get_week_range now) + 4)%Z).
  { apply week_saturday. }
  rewrite Hsat.
  split; [|split; [|split; [|split; reflexivity]]].
  - rewrite report_layout. cbv zeta. rewrite daily_breakdown_eq.
    cbn [member_totals member_days week_total members].
    rewrite Hsat, week_dates_explicit. cbv zeta.
    assert (Hnone : week_payments
                      {| payments := []; members := roster;
                         report_channel := channel |} now = []).
    { unfold week_payments, week_dates. cbn. reflexivity. }
    assert (Hdated : week_dated_payments
                       {| payments := []; members := roster;
                          report_channel := channel |} now = []).
    { unfold week_dated_payments, week_dates. cbn. reflexivity. }
    rewrite Hnone, Hdated. cbn [fold_left sum_amounts].
    assert (Hsummary :
              map (summary_entry (Dict.from_keys roster []))
                  (Dict.from_keys roster PyFloat.zero)
              = map unpaid_line (Dict.keys (Dict.from_keys roster PyFloat.zero))).
    { rewrite (from_keys_constant roster PyFloat.zero) at 1.
      rewrite map_map. apply map_ext_in. intros member _.
      apply summary_entry_unpaid.
      destruct (Dict.get member (Dict.from_keys roster [])) eqn:E; [|now right].
      left. f_equal. exact (get_from_keys_value _ _ _ _ E). }
    rewrite Hsummary. reflexivity.
  - rewrite <- (week_day_names now), week_dates_explicit. reflexivity.
  - intros member. symmetry. apply in_keys_from_keys.
Qed.

(** C1 as it is stated: the days are five, not six.  On Sunday
    1 November 2026 the report of an empty ledger has "No payments
    recorded" five times. *)
Lemma report_six_days_counterexample :
  ~ (forall (roster : list string) (channel : option Z) (now : Calendar.datetime),
        count_occurrences "No payments recorded"
          (generate_weekly_report
             {| payments := []; members := roster; report_channel := channel |}
             now) = 6%nat).
Proof.
  intros H.
  specialize (H ["john"] None
                {| Calendar.ordinal := 739921; Calendar.hour := 9;
                   Calendar.minute := 0; Calendar.second := 0 |}).
  vm_compute in H. discriminate H.
Qed.

Section RosterAndLedger.

Lemma str_in_iff (x : string) (xs : list string) :
  str_in x xs = true <-> In x xs.
Proof.
  unfold str_in. rewrite existsb_exists. split.
  - intros (y & Hy & E). apply String.eqb_eq in E. now subst.
  - intros H. exists x. split; [exact H|apply String.eqb_refl].
Qed.

Lemma concat_in (x : string) (l : list string) :
  In x l -> exists before after, String.concat "" l = before ++ x ++ after.
Proof.
  intros (l1 & l2 & ->)%in_split.
  exists (String.concat "" l1), (String.concat "" l2).
  now rewrite concat_app, concat_cons.
Qed.

Lemma get_in {V : Type} (k : string) (v : V) (d : Dict.t V) :
  Dict.get k d = Some v -> In (k, v) d.
Proof.
  induction d as [|[k0 v0] r IH]; cbn; [discriminate|].
  destruct (String.eqb_spec k0 k) as [->|Hne].
  - intros [= ->]. now left.
  - intros H. right. now apply IH.
Qed.

(** A payment of a name that is not a key changes no total. *)
Lemma fold_credit_roster (roster : list string) (ps : list payment) :
  forall totals,
    (forall k, In k (Dict.keys totals) <-> In k roster) ->
    fold_left credit ps totals
    = fold_left credit (filter (fun p => str_in (username p) roster) ps) totals.
Proof.
  induction ps as [|p ps IH]; intros totals Hkeys; [reflexivity|].
  cbn [fold_left filter].
  destruct (str_in (username p) roster) eqn:E; cbn [fold_left].
  - apply IH. intros k. now rewrite keys_credit.
  - assert (Hget : Dict.get (username p) totals = None).
    { destruct (Dict.get (username p) totals) eqn:G; [|reflexivity].
      assert (Hin : In (username p) roster)
        by (apply Hkeys, get_in_keys; congruence).
      apply str_in_iff in Hin. congruence. }
    unfold credit at 2. rewrite Hget. now apply IH.
Qed.

Lemma fold_mark_day_roster (roster : list string) (dps : list (Z * payment)) :
  forall days,
    (forall k, In k (Dict.keys days) <-> In k roster) ->
    fold_left mark_day dps days
    = fold_left mark_day
                (filter (fun dp => str_in (username (snd dp)) roster) dps) days.
Proof.
  induction dps as [|dp dps IH]; intros days Hkeys; [reflexivity|].
  cbn [fold_left filter].
  destruct (str_in (username (snd dp)) roster) eqn:E; cbn [fold_left].
  - apply IH. intros k. now rewrite keys_mark_day.
  - assert (Hget : Dict.get (username (snd dp)) days = None).
    { destruct (Dict.get (username (snd dp)) days) eqn:G; [|reflexivity].
      assert (Hin : In (username (snd dp)) roster)
        by (apply Hkeys, get_in_keys; congruence).
      apply str_in_iff in Hin. congruence. }
    unfold mark_day at 2. rewrite Hget. now apply IH.
Qed.

Lemma filter_comm {A : Type} (f g : A -> bool) (l : list A) :
  filter f (filter g l) = filter g (filter f l).
Proof.
  induction l as [|a l IH]; [reflexivity|]. cbn.
  destruct (f a) eqn:Ef, (g a) eqn:Eg; cbn; rewrite ?Ef, ?Eg, IH; reflexivity.
Qed.

Lemma filter_flat_map {A B : Type} (f : B -> bool) (g : A -> list B) (l : list A) :
  filter f (flat_map g l) = flat_map (fun a => filter f (g a)) l.
Proof.
  induction l as [|a l IH]; [reflexivity|]. cbn.
  now rewrite filter_app, IH.
Qed.

Lemma filter_map_pair {A : Type} (d : Z) (f : A -> bool) (l : list A) :
  filter (fun dp => f (snd dp)) (map (pair d) l) = map (pair d) (filter f l).
Proof.
  induction l as [|a l IH]; [reflexivity|]. cbn.
  destruct (f a); cbn; now rewrite IH.
Qed.

Lemma week_payments_roster_only (data : ledger) (now : Calendar.datetime) :
  week_payments (roster_only data) now
  = filter (fun p => str_in (username p) (members data)) (week_payments data now).
Proof.
  unfold week_payments. rewrite filter_flat_map. apply flat_map_ext.
  intros d. unfold day_payments, roster_only. cbn [payments].
  apply filter_comm.
Qed.

Lemma week_dated_payments_roster_only (data : ledger) (now : Calendar.datetime) :
  week_dated_payments (roster_only data) now
  = filter (fun dp => str_in (username (snd dp)) (members data))
           (week_dated_payments data now).
Proof.
  unfold week_dated_payments. rewrite filter_flat_map. apply flat_map_ext.
  intros d.
  rewrite (filter_map_pair d (fun p => str_in (username p) (members data))).
  f_equal.
  unfold day_payments, roster_only. cbn [payments]. apply filter_comm.
Qed.

(** A payment of another name leaves the entry of [m] as it is. *)
Lemma get_fold_credit_other (m : string) (ps : list payment) :
  forall totals,
    (forall p, In p ps -> username p <> m) ->
    Dict.get m (fold_left credit ps totals) = Dict.get m totals.
Proof.
  induction ps as [|p ps IH]; intros totals H; [reflexivity|].
  cbn [fold_left]. rewrite IH by (intros q Hq; apply H; now right).
  unfold credit. destruct (Dict.get (username p) totals); [|reflexivity].
  apply get_set_other. apply H. now left.
Qed.

Lemma get_fold_mark_day_other (m : string) (dps : list (Z * payment)) :
  forall days,
    (forall dp, In dp dps -> username (snd dp) <> m) ->
    Dict.get m (fold_left mark_day dps days) = Dict.get m days.
Proof.
  induction dps as [|dp dps IH]; intros days H; [reflexivity|].
  cbn [fold_left]. rewrite IH by (intros q Hq; apply H; now right).
  unfold mark_day. destruct (Dict.get (username (snd dp)) days); [|reflexivity].
  apply get_set_other. apply H. now left.
Qed.

Lemma week_dated_payments_snd (data : ledger) (now : Calendar.datetime) :
  map snd (week_dated_payments data now) = week_payments data now.
Proof.
  unfold week_dated_payments, week_payments.
  induction (week_dates now) as [|d l IH]; [reflexivity|].
  cbn [flat_map]. rewrite map_app, IH, map_map. cbn [snd].
  now rewrite map_id.
Qed.

End RosterAndLedger.

(** C6.  A payment of the week whose name is not in the roster is listed
    under its day and is part of the daily and weekly sums, yet the totals
    and the days of the members are what they are without such payments; a
    member of the roster without a payment in the week has the total 0.00
    and the days "None". *)
Theorem report_strangers_and_idle_members (data : ledger) (now : Calendar.datetime) :
  let st := daily_breakdown data now in
  (forall p d,
      In p (payments data) ->
      In d (week_dates now) ->
      date p = Calendar.strftime_Y_m_d d ->
      str_in (username p) (members data) = false ->
      In p (day_payments data d) /\
      In p (week_payments data now) /\
      (exists before after,
          day_section data d
          = before ++ payment_line p ++ after
            ++ "   Daily Total: $"
            ++ PyFloat.format_2f (sum_amounts PyFloat.zero (day_payments data d))
            ++ PyStr.nl) /\
      (exists before after,
          generate_weekly_report data now
          = before ++ day_section data d ++ after)) /\
  week_total st = sum_amounts PyFloat.zero (week_payments data now) /\
  (exists before,
      generate_weekly_report data now = before ++ report_footer (week_total st)) /\
  member_totals st = member_totals (daily_breakdown (roster_only data) now) /\
  member_days st = member_days (daily_breakdown (roster_only data) now) /\
  (forall m,
      In m (members data) ->
      (forall p, In p (week_payments data now) -> username p <> m) ->
      Dict.get m (member_totals st) = Some PyFloat.zero /\
      Dict.get m (member_days st) = Some [] /\
      exists before after,
        generate_weekly_report data now = before ++ unpaid_line m ++ after).
Proof.
  cbv zeta.
  assert (Hkeys : forall (V : Type) (v : V) k,
             In k (Dict.keys (Dict.from_keys (members data) v))
             <-> In k (members data))
    by (intros; apply in_keys_from_keys).
  split; [|split; [|split; [|split; [|split]]]].
  - intros p d Hp Hd Hdate Hstranger.
    assert (Hday : In p (day_payments data d)).
    { apply filter_In. split; [exact Hp|]. rewrite Hdate. apply String.eqb_refl. }
    split; [exact Hday|]. split.
    { apply in_flat_map. now exists d. }
    split.
    + unfold day_section. destruct (day_payments data d) as [|q qs] eqn:E;
        [contradiction|].
      destruct (concat_in (payment_line p) (map payment_line (q :: qs)))
        as (before & after & Hc); [now apply in_map|].
      exists (day_heading d ++ before), after.
      now rewrite Hc, !append_assoc.
    + rewrite report_layout. cbv zeta.
      destruct (concat_in (day_section data d)
                          (map (day_section data) (week_dates now)))
        as (before & after & Hc); [now apply in_map|].
      exists (report_header (fst (Calendar.get_week_range now))
                            (snd (Calendar.get_week_range now)) ++ before).
      eexists. rewrite Hc, !append_assoc. reflexivity.
  - now rewrite daily_breakdown_eq.
  - rewrite report_layout. cbv zeta. eexists.
    rewrite <- !append_assoc. reflexivity.
  - rewrite !daily_breakdown_eq. cbn [member_totals].
    rewrite week_payments_roster_only. cbn [roster_only members].
    apply fold_credit_roster. apply Hkeys.
  - rewrite !daily_breakdown_eq. cbn [member_days].
    rewrite week_dated_payments_roster_only. cbn [roster_only members].
    apply fold_mark_day_roster. apply Hkeys.
  - intros m Hm Hidle. rewrite report_layout. cbv zeta.
    rewrite daily_breakdown_eq. cbn [member_totals member_days week_total].
    assert (Htotal : Dict.get m (fold_left credit (week_payments data now)
                                   (Dict.from_keys (members data) PyFloat.zero))
                     = Some PyFloat.zero).
    { rewrite get_fold_credit_other by exact Hidle. now apply get_from_keys. }
    assert (Hdays : Dict.get m (fold_left mark_day (week_dated_payments data now)
                                  (Dict.from_keys (members data) []))
                    = Some []).
    { rewrite get_fold_mark_day_other; [now apply get_from_keys|].
      intros dp Hdp. apply Hidle. rewrite <- week_dated_payments_snd.
      now apply in_map. }
    split; [exact Htotal|]. split; [exact Hdays|].
    apply get_in in Htotal.
    apply (in_map (summary_entry
                     (fold_left mark_day (week_dated_payments data now)
                                (Dict.from_keys (members data) [])))) in Htotal.
    rewrite summary_entry_unpaid in Htotal by now left.
    destruct (concat_in _ _ Htotal) as (before & after & Hc).
    exists (report_header (fst (Calendar.get_week_range now))
                          (snd (Calendar.get_week_range now))
            ++ String.concat "" (map (day_section data) (week_dates now))
            ++ summary_heading ++ before).
    eexists. rewrite Hc, !append_assoc. reflexivity.
Qed.

(** On Sunday 1 November 2026, a payment of 10.00 by a name outside the
    roster, made on the Wednesday before. *)
Lemma report_strangers_and_idle_members_witness :
  let p := {| username := "zed"; amount := PyFloat.of_decimal false 10 0;
              date := "2026-10-28"; time := "10:00:00"; day := "Wednesday";
              recorded_by := "ann" |} in
  let data := {| payments := [p]; members := ["john"]; report_channel := None |} in
  let now := {| Calendar.ordinal := 739921; Calendar.hour := 9;
                Calendar.minute := 0; Calendar.second := 0 |} in
  In p (day_payments data 739917) /\
  In p (week_payments data now) /\
  (exists before after,
      day_section data 739917
      = before ++ payment_line p ++ after
        ++ "   Daily Total: $"
        ++ PyFloat.format_2f (sum_amounts PyFloat.zero (day_payments data 739917))
        ++ PyStr.nl) /\
  (exists before after,
      generate_weekly_report data now
      = before ++ day_section data 739917 ++ after).
Proof.
  cbv zeta.
  apply (proj1 (report_strangers_and_idle_members _ _)).
  - now left.
  - vm_compute. tauto.
  - reflexivity.
  - reflexivity.
Defined.

(** ** What the report depends on *)

Section ReportInputs.

Lemma report_payment_view (day_name : string)
    (acc : PyFloat.float * report_state) (p q : payment) :
  report_view p = report_view q ->
  report_payment day_name acc p = report_payment day_name acc q.
Proof.
  unfold report_view, report_payment. intros [= Hu Ha _].
  now rewrite Hu, Ha.
Qed.

Lemma fold_report_payment_view (day_name : string) (ps : list payment) :
  forall (qs : list payment) (acc : PyFloat.float * report_state),
    map report_view ps = map report_view qs ->
    fold_left (report_payment day_name) ps acc
    = fold_left (report_payment day_name) qs acc.
Proof.
  induction ps as [|p ps IH]; intros [|q qs] acc; cbn [map fold_left];
    try discriminate; [reflexivity|].
  intros [= Hu Ha Hd Hrest].
  rewrite (report_payment_view _ _ p q) by (unfold report_view; congruence).
  now apply IH.
Qed.

Lemma filter_date_view (s : string) (ps : list payment) :
  forall qs : list payment,
    map report_view ps = map report_view qs ->
    map report_view (filter (fun p => String.eqb (date p) s) ps)
    = map report_view (filter (fun p => String.eqb (date p) s) qs).
Proof.
  induction ps as [|p ps IH]; intros [|q qs]; cbn [map filter];
    try discriminate; [reflexivity|].
  intros [= Hu Ha Hd Hrest]. rewrite Hd.
  destruct (String.eqb (date q) s); cbn [map]; [|now apply IH].
  unfold report_view at 1 3. rewrite Hu, Ha, Hd. f_equal. now apply IH.
Qed.

Lemma report_day_view (data1 data2 : ledger) (d : Z) (st : report_state) :
  map report_view (payments data1) = map report_view (payments data2) ->
  report_day data1 d st = report_day data2 d st.
Proof.
  intros H. unfold report_day.
  apply (filter_date_view (Calendar.strftime_Y_m_d d)) in H.
  destruct (filter _ (payments data1)) as [|p ps],
           (filter _ (payments data2)) as [|q qs];
    try discriminate; [reflexivity|].
  now rewrite (fold_report_payment_view _ (p :: ps) (q :: qs)).
Qed.

Lemma report_days_view (data1 data2 : ledger) (saturday : Z) (fuel : nat) :
  map report_view (payments data1) = map report_view (payments data2) ->
  forall (d : Z) (st : report_state),
    report_days fuel data1 saturday d st = report_days fuel data2 saturday d st.
Proof.
  intros H. induction fuel as [|fuel IH]; intros d st; [reflexivity|].
  cbn [report_days]. destruct (d <=? saturday)%Z; [|reflexivity].
  now rewrite (report_day_view data1 data2 d st H), IH.
Qed.

Lemma get_week_range_date (now1 now2 : Calendar.datetime) :
  Calendar.ordinal now1 = Calendar.ordinal now2 ->
  Calendar.get_week_range now1 = Calendar.get_week_range now2.
Proof. unfold Calendar.get_week_range. now intros ->. Qed.

Lemma world_after_report (w : World) :
  let w' := report_command w in
  data_file w' = data_file w /\ clock w' = clock w /\ saves w' = saves w /\
  outbox w'
  = (outbox w ++ [WeeklyReport (generate_weekly_report (load_data w) (clock w))])%list.
Proof. cbv zeta. unfold report_command, send. cbn. auto. Qed.

End ReportInputs.

(** C9.  The text of the report is a function of the roster, of the name,
    amount and date of each payment and of the date of [now]: two runs on
    the same ledger at the same [now] give the same text, also one after
    the other, since a run leaves the data file as it is. *)
Theorem report_deterministic :
  (forall (data1 data2 : ledger) (now1 now2 : Calendar.datetime),
      map report_view (payments data1) = map report_view (payments data2) ->
      members data1 = members data2 ->
      Calendar.ordinal now1 = Calendar.ordinal now2 ->
      generate_weekly_report data1 now1 = generate_weekly_report data2 now2) /\
  (forall w1 w2 : World,
      load_data w1 = load_data w2 ->
      clock w1 = clock w2 ->
      exists text,
        outbox (report_command w1) = (outbox w1 ++ [WeeklyReport text])%list /\
        outbox (report_command w2) = (outbox w2 ++ [WeeklyReport text])%list) /\
  (forall w : World,
      exists text,
        outbox (report_command (report_command w))
        = (outbox w ++ [WeeklyReport text; WeeklyReport text])%list /\
        data_file (report_command (report_command w)) = data_file w).
Proof.
  split; [|split].
  - intros data1 data2 now1 now2 Hpay Hmem Hdate.
    unfold generate_weekly_report, daily_breakdown.
    rewrite (get_week_range_date now1 now2 Hdate), Hmem.
    destruct (Calendar.get_week_range now2) as [tuesday saturday].
    now rewrite (report_days_view data1 data2 _ _ Hpay).
  - intros w1 w2 Hdata Hclock.
    exists (generate_weekly_report (load_data w1) (clock w1)).
    split; [apply world_after_report|].
    rewrite Hdata, Hclock. apply world_after_report.
  - intros w. exists (generate_weekly_report (load_data w) (clock w)).
    destruct (world_after_report w) as (Hfile & Hclock & _ & Hout).
    destruct (world_after_report (report_command w)) as (Hfile' & _ & _ & Hout').
    cbv zeta in *. split; [|congruence].
    rewrite Hout', Hout, <- app_assoc. cbn [app].
    unfold load_data. now rewrite Hfile, Hclock.
Qed.

(** Two ledgers that differ in who recorded the payment and when, read at
    two hours of the same Sunday. *)
Lemma report_deterministic_witness :
  generate_weekly_report
    {| payments :=
         [{| username := "john"; amount := PyFloat.of_decimal false 50 0;
             date := "2026-10-28"; time := "10:00:00"; day := "Wednesday";
             recorded_by := "ann" |}];
       members := ["john"]; report_channel := None |}
    {| Calendar.ordinal := 739921; Calendar.hour := 9;
       Calendar.minute := 0; Calendar.second := 0 |}
  = generate_weekly_report
      {| payments :=
           [{| username := "john"; amount := PyFloat.of_decimal false 50 0;
               date := "2026-10-28"; time := "18:30:00"; day := "Wednesday";
               recorded_by := "bob" |}];
         members := ["john"]; report_channel := Some 7%Z |}
      {| Calendar.ordinal := 739921; Calendar.hour := 21;
         Calendar.minute := 5; Calendar.second := 0 |}.
Proof.
  apply (proj1 report_deterministic); reflexivity.
Defined.

(** ** The batch recorder *)

Section BatchFacts.

Lemma parse_payment_line_strip (line : string) (roster : list string) :
  parse_payment_line (PyStr.strip line) roster = parse_payment_line line roster.
Proof. unfold parse_payment_line. now rewrite strip_idempotent. Qed.

Lemma parse_payment_line_needs_at (line : string) (roster : list string) :
  PyStr.startswith "@" (PyStr.strip line) = false ->
  parse_payment_line line roster = (None, None).
Proof.
  intros H. unfold parse_payment_line.
  now rewrite startswith_at_lower, H.
Qed.

Lemma same_name_trans (x y z : string) :
  same_name x y = true -> same_name y z = true -> same_name x z = true.
Proof.
  unfold same_name. rewrite !String.eqb_eq. congruence.
Qed.

Lemma find_pointwise {A : Type} (f g : A -> bool) (l : list A) :
  (forall a, f a = g a) -> find f l = find g l.
Proof.
  intros H. induction l as [|a l IH]; [reflexivity|]. cbn.
  now rewrite H, IH.
Qed.

Lemma existsb_pointwise {A : Type} (f g : A -> bool) (l : list A) :
  (forall a, f a = g a) -> existsb f l = existsb g l.
Proof.
  intros H. induction l as [|a l IH]; [reflexivity|]. cbn.
  now rewrite H, IH.
Qed.

(** The name that [parse_payment_line] returns, looked up again, gives
    itself when it matches the roster. *)
Lemma find_returned_name (line : string) (roster : list string)
    (name : string) (amount : PyFloat.float) :
  parse_payment_line line roster = (Some name, Some amount) ->
  find (fun m => same_name m name) roster
  = if matches_roster name roster then Some name else None.
Proof.
  rewrite parse_payment_line_unfold.
  destruct (negb _); [discriminate|].
  destruct (_ <? _)%nat; [discriminate|].
  destruct (scan_amount _ _) as [[a i]|]; [|discriminate].
  intros [= Hname _]. revert Hname.
  generalize (PyStr.tail (PyStr.join " " (firstn i (tokens line)))).
  intros candidate Hname. unfold resolve in Hname. unfold matches_roster.
  destruct (find (fun member => same_name member candidate) roster)
    as [m|] eqn:Hfind.
  - subst m. pose proof (find_some _ _ Hfind) as [Hin Hsame].
    assert (Hext : forall m, same_name m name = same_name m candidate).
    { intros m. unfold same_name in *. apply String.eqb_eq in Hsame.
      now rewrite Hsame. }
    rewrite (find_pointwise _ _ roster Hext), Hfind.
    rewrite (existsb_pointwise _ _ roster Hext).
    replace (existsb _ roster) with true; [reflexivity|].
    symmetry. apply existsb_exists. now exists name.
  - subst candidate. rewrite Hfind.
    replace (existsb _ roster) with false; [reflexivity|].
    symmetry. apply not_true_is_false. intros (m & Hm & Hs)%existsb_exists.
    rewrite (find_none _ _ Hfind m Hm) in Hs. discriminate.
Qed.

(** One turn of the loop over the lines, for a roster without the empty
    name. *)
Lemma record_line_eq (roster : list string) (now : Calendar.datetime)
    (author : string) (b : batch) (line : string) :
  ~ In "" roster ->
  record_line roster now author b line
  = {| ledger_of :=
         append_payments (ledger_of b)
                         (option_list (line_record roster now author line));
       recorded_payments :=
         (recorded_payments b
          ++ option_list (line_record roster now author line))%list;
       errors := (errors b ++ option_list (line_warning roster line))%list |}.
Proof.
  intros Hempty. unfold record_line, line_record, line_warning.
  assert (Hsame : forall data : ledger, append_payments data [] = data).
  { intros [ps ms rc]. unfold append_payments. cbn. now rewrite app_nil_r. }
  assert (Hb : b = {| ledger_of := append_payments (ledger_of b) [];
                      recorded_payments := (recorded_payments b ++ [])%list;
                      errors := (errors b ++ [])%list |}).
  { destruct b. cbn. now rewrite Hsame, !app_nil_r. }
  destruct (PyStr.startswith "@" (PyStr.strip line)) eqn:Hat; cbn [negb].
  2:{ rewrite (parse_payment_line_needs_at line roster Hat). exact Hb. }
  rewrite parse_payment_line_strip.
  destruct (parse_payment_line line roster) as [[name|] [amount|]] eqn:Hparse;
    try exact Hb.
  rewrite (find_returned_name line roster name amount Hparse).
  destruct (matches_roster name roster) eqn:Hm; cbn [option_list].
  - destruct name as [|c name'].
    + exfalso. apply Hempty.
      apply existsb_exists in Hm as (m & Hin & Hs).
      unfold same_name in Hs. apply String.eqb_eq in Hs.
      destruct m; [exact Hin|discriminate].
    + unfold append_payments, append_payment, new_payment.
      now rewrite app_nil_r.
  - now rewrite Hsame, app_nil_r.
Qed.

Lemma fold_record_line (roster : list string) (now : Calendar.datetime)
    (author : string) (lines : list string) :
  ~ In "" roster ->
  forall b : batch,
    fold_left (record_line roster now author) lines b
    = {| ledger_of :=
           append_payments (ledger_of b) (batch_records roster now author lines);
         recorded_payments :=
           (recorded_payments b ++ batch_records roster now author lines)%list;
         errors := (errors b ++ batch_warnings roster lines)%list |}.
Proof.
  intros Hempty. induction lines as [|line lines IH]; intros b.
  - destruct b as [[ps ms rc] r e]. unfold append_payments. cbn.
    now rewrite !app_nil_r.
  - cbn [fold_left]. rewrite IH, record_line_eq by exact Hempty.
    cbn [ledger_of recorded_payments errors batch_records batch_warnings flat_map].
    unfold append_payments. cbn [payments members report_channel].
    now rewrite <- !app_assoc.
Qed.

Lemma batch_records_length (roster : list string) (now : Calendar.datetime)
    (author : string) (lines : list string) :
  List.length (batch_records roster now author lines)
  = List.length (matched_lines roster lines).
Proof.
  unfold batch_records, matched_lines, line_record.
  induction lines as [|line lines IH]; [reflexivity|].
  cbn [flat_map filter]. rewrite length_app, IH.
  destruct (parse_payment_line line roster) as [[name|] [amount|]];
    try reflexivity.
  now destruct (matches_roster name roster).
Qed.

Lemma batch_warnings_length (roster : list string) (lines : list string) :
  List.length (batch_warnings roster lines)
  = List.length (unmatched_lines roster lines).
Proof.
  unfold batch_warnings, unmatched_lines, line_warning.
  induction lines as [|line lines IH]; [reflexivity|].
  cbn [flat_map filter]. rewrite length_app, IH.
  destruct (parse_payment_line line roster) as [[name|] [amount|]];
    try reflexivity.
  now destruct (matches_roster name roster).
Qed.

Lemma contains_char_all (c : ascii) (s : string) :
  PyStr.contains_char c s = negb (all_chars (fun d => negb (Ascii.eqb c d)) s).
Proof.
  induction s as [|d s IH]; [reflexivity|]. cbn. rewrite IH.
  now destruct (Ascii.eqb c d).
Qed.

(** A message without [@] has no line that parses. *)
Lemma no_at_no_lines (content : string) (roster : list string) :
  PyStr.contains_char "@" (PyStr.strip content) = false ->
  Forall (fun line => parse_payment_line line roster = (None, None))
         (message_lines content).
Proof.
  rewrite contains_char_all. intros H. apply negb_false_iff in H.
  unfold message_lines, PyStr.split_on.
  apply (all_chars_split_on_from _ (ascii_of_nat 10) _ EmptyString eq_refl) in H.
  revert H. apply Forall_impl. intros line Hline.
  apply parse_payment_line_needs_at.
  destruct (PyStr.startswith "@" (PyStr.strip line)) eqn:Hat; [|reflexivity].
  apply startswith_at in Hat as [t Ht].
  apply all_chars_strip in Hline. rewrite Ht in Hline. discriminate.
Qed.

Lemma no_lines_no_batch (roster : list string) (now : Calendar.datetime)
    (author : string) (lines : list string) :
  Forall (fun line => parse_payment_line line roster = (None, None)) lines ->
  batch_records roster now author lines = [] /\ batch_warnings roster lines = [].
Proof.
  unfold batch_records, batch_warnings, line_record, line_warning.
  induction 1 as [|line lines Hline Hlines [IH1 IH2]]; [now split|].
  cbn [flat_map]. now rewrite IH1, IH2, Hline.
Qed.

End BatchFacts.

Lemma append_no_payments (data : ledger) : append_payments data [] = data.
Proof. destruct data. unfold append_payments. cbn. now rewrite app_nil_r. Qed.




(** The empty name in the roster: the line "@ 50" parses to it and matches
    it, and is answered with a warning. *)
Example empty_name_is_warned :
  let w := {| clock := wednesday_noon; bot_user := "Shorekeeper";
              data_file := Some {| payments := []; members := [""; "john"];
                                   report_channel := None |};
              saves := 0; outbox := [] |} in
  parse_payment_line "@ 50" [""; "john"]
  = (Some "", Some (PyFloat.of_decimal false 50 0)) /\
  matches_roster "" [""; "john"] = true /\
  on_message "ann" "@ 50" w
  = send (MembersMissing ["⚠️ **@** not in member list"]) w.
Proof. vm_compute. repeat split; reflexivity. Qed.

(** ** The roster *)

Section RosterFacts.

Lemma normalize_lowercase (name : string) :
  PyStr.lower (normalize name) = normalize name.
Proof.
  apply lower_fixed. unfold normalize.
  apply all_chars_remove, all_chars_lower.
Qed.

(** On a roster in lower case, equality up to case with a normalized name
    is equality. *)
Lemma matches_lowercase_roster (roster : list string) (name : string) :
  roster_lowercase roster ->
  matches_roster (normalize name) roster = str_in (normalize name) roster.
Proof.
  unfold matches_roster, str_in, same_name. rewrite normalize_lowercase.
  induction 1 as [|m roster Hm Hroster IH]; [reflexivity|].
  cbn. now rewrite IH, Hm, String.eqb_sym.
Qed.

Lemma roster_lowercase_empty : roster_lowercase (members empty_ledger).
Proof. constructor. Qed.

Lemma roster_lowercase_setup (channel_id : Z) (m1 m2 m3 m4 : string) (w : World) :
  roster_lowercase (members (load_data (setup channel_id m1 m2 m3 m4 w))).
Proof.
  unfold setup, load_data, send, save_data. cbn.
  repeat constructor; apply normalize_lowercase.
Qed.

Lemma roster_lowercase_addmember (name : string) (w : World) :
  roster_lowercase (members (load_data w)) ->
  roster_lowercase (members (load_data (addmember name w))).
Proof.
  intros H. unfold addmember.
  destruct (str_in _ _); [exact H|].
  unfold load_data at 1. cbn. apply Forall_app. split; [exact H|].
  constructor; [apply normalize_lowercase|constructor].
Qed.

Lemma roster_lowercase_removemember (name : string) (w : World) :
  roster_lowercase (members (load_data w)) ->
  roster_lowercase (members (load_data (removemember name w))).
Proof.
  intros H. unfold removemember.
  destruct (negb _); [exact H|].
  unfold load_data at 1. cbn. revert H.
  generalize (members (load_data w)) as roster.
  induction roster as [|m roster IH]; intros H; [constructor|].
  cbn. inversion H as [|? ? Hm Hroster]; subst.
  destruct (String.eqb (normalize name) m); [exact Hroster|].
  constructor; [exact Hm|now apply IH].
Qed.

(** What [addmember] does, in terms of the normalized name. *)
Lemma addmember_eq (name : string) (w : World) :
  addmember name w
  = if str_in (normalize name) (members (load_data w))
    then send (MemberAlreadyInList (normalize name)) w
    else send (MemberAdded (normalize name))
              (save_data
                 {| payments := payments (load_data w);
                    members := (members (load_data w) ++ [normalize name])%list;
                    report_channel := report_channel (load_data w) |} w).
Proof. reflexivity. Qed.

(** Adding a name and then the same name in any case: the second command
    finds it, on any roster. *)
Lemma addmember_twice (name1 name2 : string) (w : World) :
  PyStr.lower name1 = PyStr.lower name2 ->
  let w1 := addmember name1 w in
  let w2 := addmember name2 w1 in
  load_data w2 = load_data w1 /\ saves w2 = saves w1 /\
  outbox w2 = (outbox w1 ++ [MemberAlreadyInList (normalize name2)])%list.
Proof.
  intros Hcase. cbv zeta.
  assert (Hn : normalize name1 = normalize name2)
    by (unfold normalize; now rewrite Hcase).
  assert (Hin : str_in (normalize name2) (members (load_data (addmember name1 w)))
                = true).
  { rewrite <- Hn, addmember_eq.
    destruct (str_in (normalize name1) (members (load_data w))) eqn:E.
    - exact E.
    - unfold load_data at 1. cbn. apply str_in_iff, in_or_app. right. now left. }
  rewrite (addmember_eq name2). rewrite Hin. auto.
Qed.

End RosterFacts.




(** * More of the bot *)

(** ** The reporting week *)

Section WeekFacts.

Import Calendar.
Local Open Scope Z_scope.

(** The first day of the week, in one formula: the last Tuesday that is
    not after [now], except on a Monday, which goes back one day less than
    a week. *)
Lemma week_start (now : datetime) :
  fst (get_week_range now) = ordinal now - (ordinal now + 5) mod 7.
Proof.
  unfold get_week_range. cbn [fst]. set (D := ordinal now).
  destruct (weekday_cases D) as [H|[H|[H|[H|[H|[H|H]]]]]];
    rewrite H; decide_conditions;
    unfold weekday in *; Z.div_mod_to_equations; lia.
Qed.

Lemma in_dates_from (n : nat) :
  forall d x, In x (dates_from d n) <-> d <= x < d + Z.of_nat n.
Proof.
  induction n as [|n IH]; intros d x; cbn [dates_from In].
  - lia.
  - rewrite IH. lia.
Qed.

Lemma in_week_dates (now : datetime) (d : Z) :
  In d (week_dates now)
  <-> fst (get_week_range now) <= d <= snd (get_week_range now).
Proof.
  unfold week_dates. rewrite in_dates_from, week_saturday. lia.
Qed.

Lemma is_collection_day_weekday (now : datetime) :
  is_collection_day now = true <-> 1 <= weekday (ordinal now) <= 5.
Proof.
  unfold is_collection_day.
  destruct (weekday_cases (ordinal now)) as [H|[H|[H|[H|[H|[H|H]]]]]];
    rewrite H; cbn; split; intros; try lia; try discriminate; reflexivity.
Qed.

End WeekFacts.

(** X1.  The day of [now] lies in the week that [get_week_range] returns
    exactly when it is a collection day; on a Sunday and on a Monday the
    whole week is in the past. *)
Theorem week_contains_collection_day (now : Calendar.datetime) :
  let D := Calendar.ordinal now in
  let tuesday := fst (Calendar.get_week_range now) in
  let saturday := snd (Calendar.get_week_range now) in
  ((tuesday <= D <= saturday)%Z <-> Calendar.is_collection_day now = true) /\
  (In D (week_dates now) <-> Calendar.is_collection_day now = true) /\
  (Calendar.is_collection_day now = false -> (saturday < D <= saturday + 2)%Z) /\
  (tuesday <= D)%Z.
Proof.
  cbv zeta. rewrite in_week_dates, is_collection_day_weekday.
  assert (Hfalse : Calendar.is_collection_day now = false
                   <-> ~ (1 <= Calendar.weekday (Calendar.ordinal now) <= 5)%Z).
  { rewrite <- is_collection_day_weekday.
    destruct (Calendar.is_collection_day now); split; congruence. }
  rewrite Hfalse, week_saturday, week_start.
  pose proof (weekday_range (Calendar.ordinal now)) as Hr.
  unfold Calendar.weekday in *.
  repeat split; intros; Z.div_mod_to_equations; lia.
Qed.

(** X2.  From one day to the next the reporting week stays the same,
    unless the next day is a Tuesday: then it moves on by seven days. *)
Theorem week_changes_on_tuesday (now next : Calendar.datetime) :
  Calendar.ordinal next = (Calendar.ordinal now + 1)%Z ->
  Calendar.get_week_range next
  = if (Calendar.weekday (Calendar.ordinal next) =? 1)%Z
    then ((fst (Calendar.get_week_range now) + 7)%Z,
          (snd (Calendar.get_week_range now) + 7)%Z)
    else Calendar.get_week_range now.
Proof.
  intros Hnext.
  rewrite (surjective_pairing (Calendar.get_week_range next)).
  rewrite (surjective_pairing (Calendar.get_week_range now)) at 3.
  rewrite !week_saturday, !week_start, Hnext.
  destruct (Z.eqb_spec (Calendar.weekday (Calendar.ordinal now + 1)) 1) as [H|H];
    unfold Calendar.weekday in H; f_equal;
    Z.div_mod_to_equations; lia.
Qed.

(** Monday 2 November 2026 to Tuesday 3 November: the week moves from
    27-31 October to 3-7 November. *)
Lemma week_changes_on_tuesday_witness :
  Calendar.get_week_range
    {| Calendar.ordinal := 739923; Calendar.hour := 0;
       Calendar.minute := 0; Calendar.second := 0 |}
  = (739916 + 7, 739920 + 7)%Z.
Proof.
  apply (week_changes_on_tuesday
           {| Calendar.ordinal := 739922; Calendar.hour := 23;
              Calendar.minute := 59; Calendar.second := 59 |}).
  reflexivity.
Defined.

(** ** What a message can change *)

Section MessageFacts.

Lemma append_payments_assoc (data : ledger) (ps qs : list payment) :
  append_payments (append_payments data ps) qs = append_payments data (ps ++ qs).
Proof. unfold append_payments. cbn. now rewrite app_assoc. Qed.

(** One turn of the loop over the lines, on any roster: at most one
    record is appended, and it is a record of the roster made now. *)
Lemma record_line_appends (roster : list string) (now : Calendar.datetime)
    (author : string) (b : batch) (line : string) :
  exists new,
    ledger_of (record_line roster now author b line)
    = append_payments (ledger_of b) new /\
    recorded_payments (record_line roster now author b line)
    = (recorded_payments b ++ new)%list /\
    (List.length new <= 1)%nat /\
    Forall (recorded_now roster now author) new.
Proof.
  assert (Hnone : exists new,
             ledger_of b = append_payments (ledger_of b) new /\
             recorded_payments b = (recorded_payments b ++ new)%list /\
             (List.length new <= 1)%nat /\
             Forall (recorded_now roster now author) new).
  { exists []. rewrite append_no_payments, app_nil_r. cbn. auto. }
  unfold record_line.
  destruct (negb _); [exact Hnone|].
  destruct (parse_payment_line _ roster) as [[name|] [amount|]];
    try exact Hnone.
  destruct (find _ roster) as [[|c m]|] eqn:Hfind; try exact Hnone.
  apply find_some in Hfind as [Hin _].
  eexists [_]. cbn [ledger_of recorded_payments].
  split; [reflexivity|]. split; [reflexivity|]. split; [cbn; lia|].
  constructor; [|constructor].
  unfold recorded_now. cbn. repeat split; [exact Hin|discriminate].
Qed.

Lemma fold_record_line_appends (roster : list string) (now : Calendar.datetime)
    (author : string) (lines : list string) :
  forall b : batch,
  exists new,
    ledger_of (fold_left (record_line roster now author) lines b)
    = append_payments (ledger_of b) new /\
    recorded_payments (fold_left (record_line roster now author) lines b)
    = (recorded_payments b ++ new)%list /\
    (List.length new <= List.length lines)%nat /\
    Forall (recorded_now roster now author) new.
Proof.
  induction lines as [|line lines IH]; intros b.
  - exists []. cbn. rewrite append_no_payments, app_nil_r. auto.
  - cbn [fold_left].
    destruct (record_line_appends roster now author b line)
      as (new1 & Hl1 & Hr1 & Hn1 & Hv1).
    destruct (IH (record_line roster now author b line))
      as (new2 & Hl2 & Hr2 & Hn2 & Hv2).
    exists (new1 ++ new2)%list. rewrite Hl2, Hr2, Hl1, Hr1.
    rewrite append_payments_assoc, <- app_assoc, length_app. cbn [List.length].
    repeat split; [lia|]. apply Forall_app. now split.
Qed.

End MessageFacts.


(** ** More on the weekly report *)

Section SummaryFacts.

(** The total of a key after the payments: what it was, plus the amounts
    of the payments under that name, from the left. *)
Lemma get_fold_credit (m : string) (ps : list payment) :
  forall (totals : Dict.t PyFloat.float) (t0 : PyFloat.float),
    Dict.get m totals = Some t0 ->
    Dict.get m (fold_left credit ps totals)
    = Some (sum_amounts t0 (payments_of m ps)).
Proof.
  induction ps as [|p ps IH]; intros totals t0 H0; [exact H0|].
  cbn [fold_left payments_of filter].
  destruct (String.eqb_spec (username p) m) as [E|E].
  - cbn [sum_amounts fold_left]. apply IH.
    unfold credit. rewrite E, H0. apply get_set_same.
  - apply IH. unfold credit.
    destruct (Dict.get (username p) totals); [|exact H0].
    now rewrite get_set_other.
Qed.

Lemma get_fold_mark_day (m : string) (dps : list (Z * payment)) :
  forall (days : Dict.t (list string)) (l0 : list string),
    Dict.get m days = Some l0 ->
    Dict.get m (fold_left mark_day dps days)
    = Some (l0 ++ map day_abbreviation (dated_payments_of m dps))%list.
Proof.
  induction dps as [|dp dps IH]; intros days l0 H0.
  - cbn. now rewrite app_nil_r.
  - cbn [fold_left dated_payments_of filter].
    destruct (String.eqb_spec (username (snd dp)) m) as [E|E].
    + cbn [map]. rewrite (IH _ (l0 ++ [day_abbreviation dp])%list).
      * now rewrite <- app_assoc.
      * unfold mark_day. rewrite E, H0. apply get_set_same.
    + apply IH. unfold mark_day.
      destruct (Dict.get (username (snd dp)) days); [|exact H0].
      now rewrite get_set_other.
Qed.

Lemma in_first_occurrences (names : list string) (x : string) :
  In x (first_occurrences names) <-> In x names.
Proof.
  induction names as [|y names IH]; cbn; [tauto|].
  rewrite filter_In, IH.
  destruct (String.eqb_spec x y) as [->|Hne]; cbn; intuition congruence.
Qed.

Lemma NoDup_filter {A : Type} (f : A -> bool) (l : list A) :
  NoDup l -> NoDup (filter f l).
Proof.
  induction 1 as [|a l Ha Hl IH]; cbn; [constructor|].
  destruct (f a); [|exact IH].
  constructor; [|exact IH]. intros H. apply filter_In in H. tauto.
Qed.

Lemma NoDup_first_occurrences (names : list string) :
  NoDup (first_occurrences names).
Proof.
  induction names as [|y names IH]; cbn; constructor.
  - intros H. apply filter_In in H as [_ H].
    now rewrite String.eqb_refl in H.
  - now apply NoDup_filter.
Qed.

Lemma filter_filter {A : Type} (f g : A -> bool) (l : list A) :
  filter f (filter g l) = filter (fun a => g a && f a) l.
Proof.
  induction l as [|a l IH]; [reflexivity|]. cbn.
  destruct (g a); cbn; [destruct (f a)|]; now rewrite IH.
Qed.

Lemma filter_all {A : Type} (f : A -> bool) (l : list A) :
  (forall a, f a = true) -> filter f l = l.
Proof.
  intros H. induction l as [|a l IH]; [reflexivity|].
  cbn. now rewrite H, IH.
Qed.

Lemma keys_set (V : Type) (k : string) (v : V) (d : Dict.t V) :
  Dict.keys (Dict.set k v d)
  = if str_in k (Dict.keys d) then Dict.keys d else (Dict.keys d ++ [k])%list.
Proof.
  induction d as [|[k0 v0] r IH]; [reflexivity|].
  change (Dict.keys ((k0, v0) :: r)) with (k0 :: Dict.keys r).
  change (str_in k (k0 :: Dict.keys r))
    with (String.eqb k k0 || str_in k (Dict.keys r)).
  cbn [Dict.set]. rewrite (String.eqb_sym k k0).
  destruct (String.eqb k0 k).
  - reflexivity.
  - change (Dict.keys ((k0, v0) :: Dict.set k v r))
      with (k0 :: Dict.keys (Dict.set k v r)).
    rewrite IH. cbn [orb]. now destruct (str_in k (Dict.keys r)).
Qed.

(** The keys of [{m: v for m in names}]: the names, each at its first
    place. *)
Lemma keys_from_keys (V : Type) (names : list string) (v : V) :
  Dict.keys (Dict.from_keys names v) = first_occurrences names.
Proof.
  unfold Dict.from_keys.
  assert (G : forall (d : Dict.t V),
             Dict.keys (fold_left (fun d k => Dict.set k v d) names d)
             = (Dict.keys d
                ++ filter (fun y => negb (str_in y (Dict.keys d)))
                          (first_occurrences names))%list).
  { induction names as [|x names IH]; intros d; cbn [fold_left first_occurrences].
    - cbn. now rewrite app_nil_r.
    - rewrite IH, keys_set. cbn [filter].
      rewrite filter_filter.
      destruct (str_in x (Dict.keys d)) eqn:E; cbn [negb].
      + f_equal. apply filter_ext_in. intros y _.
        destruct (String.eqb_spec y x) as [->|Hne]; cbn; [now rewrite E|reflexivity].
      + rewrite <- app_assoc. cbn [app]. f_equal. f_equal.
        apply filter_ext. intros y. unfold str_in.
        rewrite existsb_app. cbn. rewrite orb_false_r, negb_orb.
        apply andb_comm. }
  rewrite G. cbn [Dict.keys map app]. apply filter_all. reflexivity.
Qed.

Lemma filter_implied {A : Type} (f g : A -> bool) (l : list A) :
  (forall a, f a = true -> g a = true) ->
  filter f (filter g l) = filter f l.
Proof.
  intros H. induction l as [|a l IH]; [reflexivity|]. cbn.
  destruct (g a) eqn:Eg; cbn.
  - now rewrite IH.
  - destruct (f a) eqn:Ef; [|exact IH]. rewrite (H a Ef) in Eg. discriminate.
Qed.

Lemma day_payments_in_week_only (data : ledger) (now : Calendar.datetime) (d : Z) :
  In d (week_dates now) ->
  day_payments (in_week_only data now) d = day_payments data d.
Proof.
  intros Hd. unfold day_payments, in_week_only. cbn [payments].
  apply filter_implied. intros p Hp. apply String.eqb_eq in Hp.
  apply str_in_iff. rewrite Hp. unfold week_date_strings. now apply in_map.
Qed.

Lemma flat_map_pointwise {A B : Type} (f g : A -> list B) (l : list A) :
  (forall a, In a l -> f a = g a) -> flat_map f l = flat_map g l.
Proof.
  induction l as [|a l IH]; intros H; [reflexivity|]. cbn.
  rewrite (H a) by now left.
  rewrite IH; [reflexivity|]. intros b Hb. apply H. now right.
Qed.

(** The report in terms of the payments of each day of the week. *)
Lemma report_by_day (data1 data2 : ledger) (now : Calendar.datetime) :
  members data1 = members data2 ->
  (forall d, In d (week_dates now) -> day_payments data1 d = day_payments data2 d) ->
  generate_weekly_report data1 now = generate_weekly_report data2 now.
Proof.
  intros Hm Hd.
  assert (Hsec : map (day_section data1) (week_dates now)
                 = map (day_section data2) (week_dates now)).
  { apply map_ext_in. intros d Hin. unfold day_section. now rewrite Hd. }
  assert (Hst : daily_breakdown data1 now = daily_breakdown data2 now).
  { rewrite !daily_breakdown_eq, Hm, Hsec.
    unfold week_payments, week_dated_payments.
    rewrite (flat_map_pointwise (day_payments data1) (day_payments data2))
      by exact Hd.
    rewrite (flat_map_pointwise
               (fun d => map (pair d) (day_payments data1 d))
               (fun d => map (pair d) (day_payments data2 d)))
      by (intros d Hin; now rewrite Hd).
    reflexivity. }
  rewrite !report_layout. cbv zeta. now rewrite Hst, Hsec.
Qed.

End SummaryFacts.

(** X4.  In the summary, the total of a member of the roster is the sum,
    from the left and from zero, of the amounts paid under exactly that
    name in the week, the days are the abbreviations of the days of these
    payments in the order of the report, and the line of the member,
    marked paid when the total is above zero, is part of the report. *)
Theorem member_summary_line (data : ledger) (now : Calendar.datetime) (m : string) :
  In m (members data) ->
  let st := daily_breakdown data now in
  let total := sum_amounts PyFloat.zero (payments_of m (week_payments data now)) in
  let days := map day_abbreviation
                  (dated_payments_of m (week_dated_payments data now)) in
  Dict.get m (member_totals st) = Some total /\
  Dict.get m (member_days st) = Some days /\
  exists before after,
    generate_weekly_report data now
    = before
      ++ (if PyFloat.gt0 total then "✅" else "❌")
      ++ " @" ++ m ++ ": $" ++ PyFloat.format_2f total
      ++ " (Days: "
      ++ match days with [] => "None" | _ => PyStr.join ", " days end
      ++ ")" ++ PyStr.nl
      ++ after.
Proof.
  intros Hm. cbv zeta.
  assert (Htotal : Dict.get m (member_totals (daily_breakdown data now))
                   = Some (sum_amounts PyFloat.zero
                                       (payments_of m (week_payments data now)))).
  { rewrite daily_breakdown_eq. cbn [member_totals].
    apply get_fold_credit. now apply get_from_keys. }
  assert (Hdays : Dict.get m (member_days (daily_breakdown data now))
                  = Some (map day_abbreviation
                              (dated_payments_of m (week_dated_payments data now)))).
  { rewrite daily_breakdown_eq. cbn [member_days].
    rewrite (get_fold_mark_day m _ _ []); [reflexivity|].
    now apply get_from_keys. }
  split; [exact Htotal|]. split; [exact Hdays|].
  rewrite report_layout. cbv zeta.
  apply get_in in Htotal.
  apply (in_map (summary_entry (member_days (daily_breakdown data now))))
    in Htotal.
  destruct (concat_in _ _ Htotal) as (before & after & Hc).
  exists (report_header (fst (Calendar.get_week_range now))
                        (snd (Calendar.get_week_range now))
          ++ String.concat "" (map (day_section data) (week_dates now))
          ++ summary_heading ++ before).
  exists (after ++ report_footer (week_total (daily_breakdown data now))).
  assert (Hentry :
            summary_entry (member_days (daily_breakdown data now))
              (m, sum_amounts PyFloat.zero (payments_of m (week_payments data now)))
            = (if PyFloat.gt0
                    (sum_amounts PyFloat.zero
                                 (payments_of m (week_payments data now)))
               then "✅" else "❌")
              ++ " @" ++ m ++ ": $"
              ++ PyFloat.format_2f
                   (sum_amounts PyFloat.zero
                                (payments_of m (week_payments data now)))
              ++ " (Days: "
              ++ match map day_abbreviation
                           (dated_payments_of m (week_dated_payments data now))
                 with
                 | [] => "None"
                 | _ => PyStr.join ", "
                          (map day_abbreviation
                               (dated_payments_of m
                                  (week_dated_payments data now)))
                 end
              ++ ")" ++ PyStr.nl).
  { unfold summary_entry, summary_line. rewrite Hdays.
    destruct (map day_abbreviation _); reflexivity. }
  rewrite Hc, Hentry, !append_assoc. reflexivity.
Qed.

(** John paid 50.50 on the Wednesday: his line on the Sunday after. *)
Lemma member_summary_line_witness :
  let data :=
    {| payments :=
         [new_payment wednesday_noon "ann" "john" (PyFloat.of_decimal false 505 (-1))];
       members := ["john"; "mary"]; report_channel := None |} in
  let now := {| Calendar.ordinal := 739921; Calendar.hour := 9;
                Calendar.minute := 0; Calendar.second := 0 |} in
  exists before after,
    generate_weekly_report data now
    = before ++ "✅ @john: $50.50 (Days: Wed)" ++ PyStr.nl ++ after.
Proof.
  cbv zeta.
  destruct (member_summary_line
              {| payments :=
                   [new_payment wednesday_noon "ann" "john"
                                (PyFloat.of_decimal false 505 (-1))];
                 members := ["john"; "mary"]; report_channel := None |}
              {| Calendar.ordinal := 739921; Calendar.hour := 9;
                 Calendar.minute := 0; Calendar.second := 0 |} "john")
    as (_ & _ & before & after & H).
  - now left.
  - exists before, after. rewrite H. vm_compute. reflexivity.
Defined.

(** X5.  The report does not depend on the payments dated outside the
    reporting week: without them it is the same text. *)
Theorem report_ignores_other_weeks (data : ledger) (now : Calendar.datetime) :
  generate_weekly_report (in_week_only data now) now
  = generate_weekly_report data now.
Proof.
  apply report_by_day; [reflexivity|].
  intros d Hd. now apply day_payments_in_week_only.
Qed.

(** X6.  The summary has one line for each distinct name of the roster,
    in the order in which the names first occur: a name that [setup]
    stored twice is summed up once. *)
Theorem summary_names (data : ledger) (now : Calendar.datetime) :
  let st := daily_breakdown data now in
  Dict.keys (member_totals st) = first_occurrences (members data) /\
  Dict.keys (member_days st) = first_occurrences (members data) /\
  NoDup (Dict.keys (member_totals st)) /\
  (forall m, In m (Dict.keys (member_totals st)) <-> In m (members data)) /\
  List.length (map (summary_entry (member_days st)) (member_totals st))
  = List.length (first_occurrences (members data)).
Proof.
  cbv zeta. rewrite daily_breakdown_eq. cbn [member_totals member_days].
  rewrite keys_fold_credit, keys_fold_mark_day, !keys_from_keys.
  repeat split.
  - apply NoDup_first_occurrences.
  - apply in_first_occurrences.
  - apply in_first_occurrences.
  - rewrite length_map. rewrite <- (keys_from_keys _ (members data) PyFloat.zero).
    rewrite <- (keys_fold_credit (week_payments data now)).
    unfold Dict.keys. now rewrite length_map.
Qed.

(** ** From a message to the report *)

Section MessageToReport.

(** The ledger after a message: that of the loop over the lines when the
    message is read, the one before otherwise. *)
Lemma on_message_ledger (author content : string) (w : World) :
  load_data (on_message author content w)
  = if negb (String.eqb author (bot_user w))
       && (PyStr.contains_char "@" (PyStr.strip content)
           && PyStr.any_char PyStr.isdigit (PyStr.strip content))
       && Calendar.is_collection_day (clock w)
    then ledger_of
           (fold_left (record_line (members (load_data w)) (clock w) author)
                      (message_lines content)
                      {| ledger_of := load_data w; recorded_payments := [];
                         errors := [] |})
    else load_data w.
Proof.
  unfold on_message.
  destruct (String.eqb author (bot_user w)); [reflexivity|].
  destruct (_ && _); [|reflexivity].
  destruct (Calendar.is_collection_day (clock w)); [|reflexivity].
  cbn [negb andb]. fold (message_lines content).
  destruct (fold_record_line_appends (members (load_data w)) (clock w) author
              (message_lines content)
              {| ledger_of := load_data w; recorded_payments := [];
                 errors := [] |})
    as (new & Hl & Hr & _).
  cbn [ledger_of recorded_payments app] in Hl, Hr.
  destruct (recorded_payments _) as [|p ps] eqn:Hrec.
  - subst new. rewrite Hl, append_no_payments.
    now destruct (errors _).
  - reflexivity.
Qed.

(** A payment of a day of the week has its line in the report. *)
Lemma payment_listed (data : ledger) (now : Calendar.datetime) (d : Z) (p : payment) :
  In d (week_dates now) ->
  In p (day_payments data d) ->
  exists before after,
    generate_weekly_report data now = before ++ payment_line p ++ after.
Proof.
  intros Hd Hp. rewrite report_layout. cbv zeta.
  destruct (concat_in (day_section data d)
                      (map (day_section data) (week_dates now)))
    as (b1 & a1 & H1); [now apply in_map|].
  assert (H2 : exists b2 a2, day_section data d = b2 ++ payment_line p ++ a2).
  { unfold day_section. destruct (day_payments data d) as [|q qs] eqn:E;
      [contradiction|].
    destruct (concat_in (payment_line p) (map payment_line (q :: qs)))
      as (b & a & Hc); [now apply in_map|].
    exists (day_heading d ++ b). eexists. rewrite Hc, !append_assoc. reflexivity. }
  destruct H2 as (b2 & a2 & H2).
  exists (report_header (fst (Calendar.get_week_range now))
                        (snd (Calendar.get_week_range now)) ++ b1 ++ b2).
  eexists. rewrite H1, H2, !append_assoc. reflexivity.
Qed.

(** From a collection day to the Monday after, the reporting week holds
    that day. *)
Lemma same_week (now later : Calendar.datetime) :
  Calendar.is_collection_day now = true ->
  (Calendar.ordinal now <= Calendar.ordinal later
   <= Calendar.ordinal now + 7 - Calendar.weekday (Calendar.ordinal now))%Z ->
  In (Calendar.ordinal now) (week_dates later).
Proof.
  intros Hday Hlater. apply is_collection_day_weekday in Hday.
  apply in_week_dates. rewrite week_saturday, week_start.
  unfold Calendar.weekday in *. Z.div_mod_to_equations. lia.
Qed.

End MessageToReport.



(** ** The roster commands *)

Section RosterCommands.

Lemma list_remove_app_new (x : string) (xs : list string) :
  ~ In x xs -> list_remove x (xs ++ [x]) = xs.
Proof.
  induction xs as [|y xs IH]; intros H; cbn.
  - now rewrite String.eqb_refl.
  - destruct (String.eqb_spec x y) as [->|Hne]; [exfalso; apply H; now left|].
    f_equal. apply IH. intros Hin. apply H. now right.
Qed.

Lemma count_list_remove (x y : string) (xs : list string) :
  count_occ string_dec (list_remove x xs) y
  = if string_dec x y
    then Nat.pred (count_occ string_dec xs y)
    else count_occ string_dec xs y.
Proof.
  induction xs as [|z xs IH]; cbn [list_remove count_occ].
  - now destruct (string_dec x y).
  - destruct (String.eqb_spec x z) as [<-|Hne].
    + destruct (string_dec x y); reflexivity.
    + cbn [count_occ]. rewrite IH.
      destruct (string_dec z y) as [->|Hzy]; [|reflexivity].
      destruct (string_dec x y); [contradiction|reflexivity].
Qed.

Lemma removemember_eq (name : string) (w : World) :
  removemember name w
  = if str_in (normalize name) (members (load_data w))
    then send (MemberRemoved (normalize name))
              (save_data
                 {| payments := payments (load_data w);
                    members := list_remove (normalize name) (members (load_data w));
                    report_channel := report_channel (load_data w) |} w)
    else send (MemberNotInList (normalize name)) w.
Proof.
  unfold removemember. now destruct (str_in _ _).
Qed.

Lemma remove_at_all (s : string) :
  PyStr.contains_char "@" (PyStr.remove "@" s) = false.
Proof.
  unfold PyStr.remove. induction s as [|c s IH]; [reflexivity|].
  cbn [PyStr.remove_from String.prefix String.length Nat.sub].
  destruct (ascii_dec "@" c) as [<-|Hne].
  - destruct s; exact IH.
  - cbn [PyStr.contains_char]. rewrite IH.
    destruct (Ascii.eqb_spec "@"%char c); [contradiction|reflexivity].
Qed.

Lemma stored_normalize (name : string) : stored_name (normalize name).
Proof. split; [apply normalize_lowercase|apply remove_at_all]. Qed.

Lemma Forall_list_remove (P : string -> Prop) (x : string) (xs : list string) :
  Forall P xs -> Forall P (list_remove x xs).
Proof.
  induction 1 as [|y xs Hy Hxs IH]; cbn; [constructor|].
  destruct (String.eqb x y); [exact Hxs|now constructor].
Qed.

End RosterCommands.




(** X10.  [addmember] does not make a duplicate: a roster without a
    repeated entry stays so, whatever the case of its entries. *)
Theorem addmember_no_duplicate (name : string) (w : World) :
  NoDup (members (load_data w)) ->
  NoDup (members (load_data (addmember name w))).
Proof.
  intros H. rewrite addmember_eq.
  destruct (str_in (normalize name) (members (load_data w))) eqn:E; [exact H|].
  unfold load_data at 1. cbn [send save_data data_file members].
  apply NoDup_app; [exact H|repeat constructor; intros []|].
  intros x Hx [<-|[]]. apply str_in_iff in Hx. congruence.
Qed.

(** John is in the roster of the example already; Zoe is new. *)
Lemma addmember_no_duplicate_witness :
  NoDup (members (load_data (addmember "JOHN" example_world))) /\
  NoDup (members (load_data (addmember "Zoe" example_world))).
Proof.
  assert (H : NoDup (members (load_data example_world))).
  { cbn. repeat constructor; cbn; intuition discriminate. }
  split; apply addmember_no_duplicate; exact H.
Defined.

(** ** What every history keeps *)

Section Histories.

Lemma in_list_remove (x y : string) (xs : list string) :
  In y (list_remove x xs) -> In y xs.
Proof.
  induction xs as [|z xs IH]; cbn; [tauto|].
  destruct (String.eqb x z); [now right|].
  intros [H|H]; [now left|right; now apply IH].
Qed.

Lemma stored_recorded (roster : list string) (now : Calendar.datetime)
    (author : string) (p : payment) :
  Forall stored_name roster ->
  Calendar.is_collection_day now = true ->
  recorded_now roster now author p ->
  stored_payment p.
Proof.
  intros Hroster Hday (Hin & Hne & Hdate & _ & Hdayname & _).
  split; [exact Hne|]. split.
  - exact (proj1 (Forall_forall _ _) Hroster _ Hin).
  - exists (Calendar.ordinal now). split; [|now split].
    now apply is_collection_day_weekday.
Qed.

Lemma stored_on_message (author content : string) (w : World) :
  stored_ledger (load_data w) ->
  stored_ledger (load_data (on_message author content w)).
Proof.
  intros [Hm Hp]. rewrite on_message_ledger.
  destruct (_ && _ && Calendar.is_collection_day (clock w)) eqn:Hread;
    [|now split].
  apply andb_prop in Hread as [_ Hday].
  destruct (fold_record_line_appends (members (load_data w)) (clock w) author
              (message_lines content)
              {| ledger_of := load_data w; recorded_payments := [];
                 errors := [] |})
    as (new & Hl & _ & _ & Hv).
  cbn [ledger_of] in Hl. rewrite Hl. split; [exact Hm|].
  cbn [append_payments payments]. apply Forall_app. split; [exact Hp|].
  revert Hv. apply Forall_impl. intros p. now apply stored_recorded.
Qed.

Lemma stored_run (c : command) (w : World) :
  stored_ledger (load_data w) -> stored_ledger (load_data (run c w)).
Proof.
  intros H. destruct c as [author content|ch m1 m2 m3 m4|name|name| | |now];
    cbn [run].
  - now apply stored_on_message.
  - destruct H as [_ Hp]. split; [|exact Hp].
    cbn. repeat constructor; apply stored_normalize.
  - rewrite addmember_eq. destruct (str_in _ _); [exact H|].
    destruct H as [Hm Hp]. split; [|exact Hp].
    unfold load_data at 1. cbn [send save_data data_file members].
    apply Forall_app. split; [exact Hm|].
    constructor; [apply stored_normalize|constructor].
  - rewrite removemember_eq. destruct (str_in _ _); [|exact H].
    destruct H as [Hm Hp]. split; [|exact Hp].
    unfold load_data at 1. cbn [send save_data data_file members].
    now apply Forall_list_remove.
  - destruct H as [Hm _]. split; [exact Hm|constructor].
  - exact H.
  - exact H.
Qed.

End Histories.



(** X12.  Removing a member removes no payment: every day of the report
    lists what it listed and the weekly total is what it was, the members
    that stay keep their totals and their days, and the name removed,
    when it was once in the roster, has no line in the summary any more. *)
Theorem removemember_keeps_payments (name : string) (w : World)
    (now : Calendar.datetime) :
  let data := load_data w in
  let data' := load_data (removemember name w) in
  let st := daily_breakdown data now in
  let st' := daily_breakdown data' now in
  payments data' = payments data /\
  (forall d, day_section data' d = day_section data d) /\
  week_total st' = week_total st /\
  (forall m, In m (members data') ->
             In m (members data) /\
             Dict.get m (member_totals st') = Dict.get m (member_totals st) /\
             Dict.get m (member_days st') = Dict.get m (member_days st)) /\
  ((count_occ string_dec (members data) (normalize name) <= 1)%nat ->
   Dict.get (normalize name) (member_totals st') = None).
Proof.
  cbv zeta.
  assert (Hpay : payments (load_data (removemember name w))
                 = payments (load_data w)).
  { rewrite removemember_eq. now destruct (str_in _ _). }
  assert (Hsub : forall m, In m (members (load_data (removemember name w))) ->
                           In m (members (load_data w))).
  { intros m. rewrite removemember_eq. destruct (str_in _ _); [|tauto].
    unfold load_data at 1. cbn [send save_data data_file members].
    apply in_list_remove. }
  assert (Hday : forall d, day_payments (load_data (removemember name w)) d
                           = day_payments (load_data w) d).
  { intros d. unfold day_payments. now rewrite Hpay. }
  assert (Hweek : week_payments (load_data (removemember name w)) now
                  = week_payments (load_data w) now).
  { unfold week_payments. apply flat_map_pointwise. intros d _. apply Hday. }
  assert (Hdated : week_dated_payments (load_data (removemember name w)) now
                   = week_dated_payments (load_data w) now).
  { unfold week_dated_payments. apply flat_map_pointwise. intros d _.
    now rewrite Hday. }
  split; [exact Hpay|]. split; [|split; [|split]].
  - intros d. unfold day_section. now rewrite Hday.
  - rewrite !daily_breakdown_eq. cbn [week_total]. now rewrite Hweek.
  - intros m Hm. split; [now apply Hsub|].
    rewrite !daily_breakdown_eq. cbn [member_totals member_days].
    rewrite Hweek, Hdated. split.
    + rewrite !(get_fold_credit m _ _ PyFloat.zero); try reflexivity;
        apply get_from_keys; auto.
    + rewrite !(get_fold_mark_day m _ _ []); try reflexivity;
        apply get_from_keys; auto.
  - intros Hcount. rewrite daily_breakdown_eq. cbn [member_totals].
    destruct (Dict.get _ (fold_left _ _ _)) eqn:G; [|reflexivity].
    exfalso.
    assert (Hin : In (normalize name)
                     (members (load_data (removemember name w)))).
    { apply (in_keys_from_keys _ PyFloat.zero).
      rewrite <- (keys_fold_credit
                    (week_payments (load_data (removemember name w)) now)).
      apply get_in_keys. congruence. }
    revert Hin. rewrite removemember_eq.
    destruct (str_in (normalize name) (members (load_data w))) eqn:E.
    + unfold load_data at 1. cbn [send save_data data_file members].
      intros Hin. apply (count_occ_In string_dec) in Hin.
      rewrite count_list_remove in Hin.
      destruct (string_dec _ _); [lia|contradiction].
    + intros Hin. apply str_in_iff in Hin.
      change (load_data (send (MemberNotInList (normalize name)) w))
        with (load_data w) in Hin. congruence.
Qed.

(** ** The case of a line *)

Section LineCase.

Lemma isspace_lower_char (c : ascii) :
  PyStr.isspace (PyStr.lower_char c) = PyStr.isspace c.
Proof. destruct c as [[] [] [] [] [] [] [] []]; reflexivity. Qed.

Lemma lstrip_lower (s : string) :
  PyStr.lstrip (PyStr.lower s) = PyStr.lower (PyStr.lstrip s).
Proof.
  induction s as [|c s IH]; [reflexivity|].
  cbn [PyStr.lower PyStr.lstrip]. rewrite isspace_lower_char, IH.
  now destruct (PyStr.isspace c).
Qed.

Lemma rstrip_lower (s : string) :
  PyStr.rstrip (PyStr.lower s) = PyStr.lower (PyStr.rstrip s).
Proof.
  induction s as [|c s IH]; [reflexivity|].
  cbn [PyStr.lower PyStr.rstrip]. rewrite isspace_lower_char, IH.
  destruct (PyStr.rstrip s); cbn [PyStr.lower]; [|reflexivity].
  now destruct (PyStr.isspace c).
Qed.

Lemma strip_lower (s : string) :
  PyStr.strip (PyStr.lower s) = PyStr.lower (PyStr.strip s).
Proof. unfold PyStr.strip. now rewrite lstrip_lower, rstrip_lower. Qed.

End LineCase.



(** ** The summary of the day *)

Section DayFacts.

Lemma skipn_length_app {A : Type} (l x : list A) :
  skipn (List.length l) (l ++ x) = x.
Proof. induction l as [|a l IH]; [reflexivity|exact IH]. Qed.

Lemma skipn_length {A : Type} (l : list A) : skipn (List.length l) l = [].
Proof. induction l as [|a l IH]; [reflexivity|exact IH]. Qed.

(** The four ways in which [on_message] ends. *)
Lemma on_message_outcome (author content : string) (w : World) :
  on_message author content w = w \/
  (Calendar.is_collection_day (clock w) = false /\
   on_message author content w
   = send (CollectionClosed (Calendar.day_name (Calendar.ordinal (clock w)))) w) \/
  (exists p new errs,
      Calendar.is_collection_day (clock w) = true /\
      Forall (recorded_now (members (load_data w)) (clock w) author) (p :: new) /\
      on_message author content w
      = send (PaymentsRecorded (p :: new) errs)
             (save_data (append_payments (load_data w) (p :: new)) w)) \/
  (exists e errs,
      on_message author content w = send (MembersMissing (e :: errs)) w).
Proof.
  unfold on_message.
  destruct (String.eqb author (bot_user w)); [now left|].
  destruct (_ && _); [|now left].
  destruct (Calendar.is_collection_day (clock w)) eqn:Hday; cbn [negb];
    [|right; left; now split].
  destruct (fold_record_line_appends (members (load_data w)) (clock w) author
              (PyStr.split_on (ascii_of_nat 10) (PyStr.strip content))
              {| ledger_of := load_data w; recorded_payments := [];
                 errors := [] |})
    as (new & Hl & Hr & _ & Hv).
  cbn [ledger_of recorded_payments app] in Hl, Hr. rewrite Hl, Hr.
  destruct new as [|p new].
  - destruct (errors _) as [|e errs]; [now left|].
    right. right. right. now exists e, errs.
  - right. right. left. exists p, new. eexists. repeat split; assumption.
Qed.

Lemma in_pending (roster : list string) (ps : list payment) (m : string) :
  In m (pending_members roster ps)
  <-> In m roster /\ forall p, In p ps -> username p <> m.
Proof.
  unfold pending_members. rewrite filter_In, negb_true_iff.
  split; intros [Hm H]; (split; [exact Hm|]).
  - intros p Hp E.
    assert (Hin : str_in m (map username ps) = true)
      by (apply str_in_iff; rewrite <- E; now apply in_map).
    congruence.
  - apply not_true_is_false. intros Hin. apply str_in_iff in Hin.
    apply in_map_iff in Hin as (p & E & Hp). exact (H p Hp E).
Qed.

Lemma fold_today_line (ps : list payment) :
  forall (response : string) (total : PyFloat.float),
    fold_left today_line ps (response, total)
    = (response
       ++ String.concat ""
            (map (fun p => "• @" ++ username p ++ ": $"
                           ++ PyFloat.format_2f (amount p) ++ PyStr.nl) ps),
       sum_amounts total ps).
Proof.
  induction ps as [|p ps IH]; intros response total.
  - cbn. now rewrite append_nil_r.
  - cbn [fold_left today_line map]. rewrite IH, concat_cons, append_assoc.
    reflexivity.
Qed.

End DayFacts.



(** X15.  The text of [/today]: the heading, then the payments dated
    today, one line each, and their total, added from the left and from
    zero as the Daily Total of the weekly report is, or the words "No
    payments recorded today."; then the pending members.  When nobody has
    paid today, all the roster is pending. *)
Theorem today_text (w : World) :
  let data := load_data w in
  let D := Calendar.ordinal (clock w) in
  let paid := day_payments data D in
  let pending := pending_members (members data) paid in
  today w
  = "📊 **Today's Summary (" ++ Calendar.day_name D ++ ", "
    ++ Calendar.strftime_Y_m_d D ++ ")**" ++ PyStr.nl
    ++ PyStr.repeat_char "-" 30 ++ PyStr.nl
    ++ match paid with
       | [] => "No payments recorded today." ++ PyStr.nl
       | _ =>
           String.concat ""
             (map (fun p => "• @" ++ username p ++ ": $"
                            ++ PyFloat.format_2f (amount p) ++ PyStr.nl) paid)
           ++ PyStr.repeat_char "-" 30 ++ PyStr.nl
           ++ "**Today's Total: $"
           ++ PyFloat.format_2f (sum_amounts PyFloat.zero paid) ++ "**"
           ++ PyStr.nl
       end
    ++ match pending with
       | [] => ""
       | _ => PyStr.nl ++ "⏳ **Pending:** " ++ mentions pending
       end
  /\ (paid = [] -> pending = members data)
  /\ (forall m, In m pending <->
                In m (members data) /\ forall p, In p paid -> username p <> m).
Proof.
  cbv zeta. split; [|split].
  - unfold today. cbv zeta.
    fold (day_payments (load_data w) (Calendar.ordinal (clock w))).
    destruct (day_payments (load_data w) (Calendar.ordinal (clock w)))
      as [|p ps] eqn:E.
    + destruct (pending_members _ _);
        rewrite ?append_assoc, ?append_nil_r; reflexivity.
    + rewrite fold_today_line.
      destruct (pending_members _ _);
        rewrite ?append_assoc, ?append_nil_r; reflexivity.
  - intros ->. unfold pending_members. cbn. now apply filter_all.
  - intros m. apply in_pending.
Qed.

(** ** The dates of the payments *)

Section DateOrdinals.

Local Open Scope Z_scope.

(** Every day of the first 400 years is checked by evaluation. *)
Lemma cycle_checked : cycle_days_ok (Z.to_nat 146097) 0 = true.
Proof. vm_compute. reflexivity. Qed.

Lemma ord2ymd_cycle (n : Z) :
  Calendar.ord2ymd n
  = add_years (400 * ((n - 1) / 146097))
              (Calendar.ord2ymd ((n - 1) mod 146097 + 1)).
Proof.
  unfold Calendar.ord2ymd. cbv zeta.
  pose proof (Z.mod_pos_bound (n - 1) 146097 eq_refl) as Hr.
  set (q := (n - 1) / Calendar.DI400Y).
  replace ((n - 1) / 146097) with q by reflexivity.
  set (r := (n - 1) mod Calendar.DI400Y).
  replace ((n - 1) mod 146097) with r in * by reflexivity.
  replace (r + 1 - 1) with r by ring.
  change Calendar.DI400Y with 146097 in *.
  rewrite (Z.div_small r 146097), (Z.mod_small r 146097) by exact Hr.
  repeat match goal with
  | |- context [if ?c then _ else _] => destruct c
  end; unfold add_years; try (f_equal; try f_equal; ring).
Qed.


Lemma cycle_days_ok_spec (fuel : nat) :
  forall r0 r,
    cycle_days_ok fuel r0 = true ->
    r0 <= r < r0 + Z.of_nat fuel -> cycle_day_ok r = true.
Proof.
  induction fuel as [|k IH]; intros r0 r H Hr; [lia|].
  cbn [cycle_days_ok] in H. apply andb_prop in H as [H0 Hk].
  destruct (Z.eq_dec r r0) as [->|Hne]; [exact H0|].
  apply (IH (r0 + 1)); [exact Hk|lia].
Qed.

Lemma cycle_day (r : Z) :
  0 <= r < 146097 ->
  let '(y, m, d) := Calendar.ord2ymd (r + 1) in
  1 <= y <= 400 /\ 1 <= m <= 12 /\ 1 <= d <= 31 /\ ymd2ord (y, m, d) = r + 1.
Proof.
  intros Hr.
  pose proof (cycle_days_ok_spec _ 0 r cycle_checked) as H.
  rewrite Z2Nat.id in H by lia. specialize (H Hr).
  unfold cycle_day_ok in H.
  destruct (Calendar.ord2ymd (r + 1)) as [[y m] d].
  repeat (apply andb_prop in H as [H ?]).
  repeat match goal with
         | H : (_ <=? _) = true |- _ => apply Z.leb_le in H
         | H : (_ =? _) = true |- _ => apply Z.eqb_eq in H
         end.
  repeat split; assumption.
Qed.

Lemma ord2ymd_injective (n1 n2 : Z) :
  Calendar.ord2ymd n1 = Calendar.ord2ymd n2 -> n1 = n2.
Proof.
  rewrite (ord2ymd_cycle n1), (ord2ymd_cycle n2).
  pose proof (cycle_day ((n1 - 1) mod 146097) (Z.mod_pos_bound _ 146097 eq_refl)) as H1.
  pose proof (cycle_day ((n2 - 1) mod 146097) (Z.mod_pos_bound _ 146097 eq_refl)) as H2.
  destruct (Calendar.ord2ymd ((n1 - 1) mod 146097 + 1)) as [[y1 m1] d1].
  destruct (Calendar.ord2ymd ((n2 - 1) mod 146097 + 1)) as [[y2 m2] d2].
  destruct H1 as (Hy1 & _ & _ & Ho1), H2 as (Hy2 & _ & _ & Ho2).
  remember (400 * ((n1 - 1) / 146097))%Z as k1 eqn:Hk1.
  remember (400 * ((n2 - 1) / 146097))%Z as k2 eqn:Hk2.
  unfold add_years. intros [= Hy Hm Hd].
  assert (Hq : (n1 - 1) / 146097 = (n2 - 1) / 146097) by lia.
  assert (y1 = y2) by lia. subst y2 m2 d2.
  pose proof (Z.div_mod (n1 - 1) 146097). pose proof (Z.div_mod (n2 - 1) 146097).
  lia.
Qed.

Lemma ord2ymd_range (n : Z) :
  1 <= n ->
  let '(y, m, d) := Calendar.ord2ymd n in 1 <= y /\ 1 <= m <= 12 /\ 1 <= d <= 31.
Proof.
  intros Hn. rewrite (ord2ymd_cycle n).
  pose proof (cycle_day ((n - 1) mod 146097) (Z.mod_pos_bound _ 146097 eq_refl)) as H.
  destruct (Calendar.ord2ymd ((n - 1) mod 146097 + 1)) as [[y m] d].
  unfold add_years. destruct H as (Hy & Hm & Hd & _).
  assert (0 <= (n - 1) / 146097) by (apply Z.div_pos; lia).
  repeat split; lia.
Qed.

End DateOrdinals.

(** Different days have different date strings. *)

Section DateStrings.

Lemma append_injective (a1 a2 b1 b2 : string) :
  String.length b1 = String.length b2 ->
  a1 ++ b1 = a2 ++ b2 -> a1 = a2 /\ b1 = b2.
Proof.
  intros Hlen. revert a2.
  induction a1 as [|c a1 IH]; intros [|c2 a2] H; cbn in H.
  - now split.
  - exfalso. subst b1. cbn in Hlen.
    assert (L : forall x y : string, String.length (x ++ y) = (String.length x + String.length y)%nat).
    { induction x; cbn; auto. }
    rewrite L in Hlen. lia.
  - exfalso. subst b2. cbn in Hlen.
    assert (L : forall x y : string, String.length (x ++ y) = (String.length x + String.length y)%nat).
    { induction x; cbn; auto. }
    rewrite L in Hlen. lia.
  - injection H as -> H. destruct (IH a2 H) as [-> ->]. now split.
Qed.

Lemma dec_injective (x y : Z) :
  (0 <= x)%Z -> (0 <= y)%Z -> PyFloat.dec x = PyFloat.dec y -> x = y.
Proof.
  intros Hx Hy H. unfold PyFloat.dec in H.
  assert (Hnn : forall n : N, N.to_uint n <> Decimal.Nil).
  { intros [|p]; cbn; [discriminate|apply DecimalPos.Unsigned.to_uint_nonnil]. }
  assert (E : N.to_uint (Z.to_N x) = N.to_uint (Z.to_N y)).
  { pose proof (NilZero.usu _ (Hnn (Z.to_N x))) as H1.
    pose proof (NilZero.usu _ (Hnn (Z.to_N y))) as H2.
    rewrite H in H1. congruence. }
  apply DecimalN.Unsigned.to_uint_inj in E. lia.
Qed.

Lemma two_digits_facts (a : Z) :
  (0 <= a < 100)%Z ->
  String.length (PyFloat.two_digits a) = 2%nat /\
  forall b, (0 <= b < 100)%Z -> PyFloat.two_digits a = PyFloat.two_digits b -> a = b.
Proof.
  intros Ha.
  assert (Hall : forallb (fun a => (String.length (PyFloat.two_digits a) =? 2)%nat
                            && forallb (two_digits_distinct a)
                                       (map Z.of_nat (seq 0 100)))
                         (map Z.of_nat (seq 0 100)) = true)
    by (vm_compute; reflexivity).
  rewrite forallb_forall in Hall.
  assert (Hin : forall x, (0 <= x < 100)%Z -> In x (map Z.of_nat (seq 0 100))).
  { intros x Hx. apply in_map_iff. exists (Z.to_nat x). split; [lia|].
    apply in_seq. lia. }
  specialize (Hall a (Hin a Ha)). apply andb_prop in Hall as [Hl Hd].
  split; [now apply Nat.eqb_eq|].
  intros b Hb E. rewrite forallb_forall in Hd. specialize (Hd b (Hin b Hb)).
  unfold two_digits_distinct in Hd. rewrite E, String.eqb_refl in Hd.
  cbn in Hd. rewrite orb_false_r in Hd. now apply Z.eqb_eq.
Qed.

Lemma strftime_Y_m_d_injective (d1 d2 : Z) :
  (1 <= d1)%Z -> (1 <= d2)%Z ->
  Calendar.strftime_Y_m_d d1 = Calendar.strftime_Y_m_d d2 -> d1 = d2.
Proof.
  intros H1 H2 E. apply ord2ymd_injective.
  unfold Calendar.strftime_Y_m_d in E.
  pose proof (ord2ymd_range d1 H1) as R1. pose proof (ord2ymd_range d2 H2) as R2.
  destruct (Calendar.ord2ymd d1) as [[y1 m1] dd1].
  destruct (Calendar.ord2ymd d2) as [[y2 m2] dd2].
  destruct R1 as (Hy1 & Hm1 & Hd1), R2 as (Hy2 & Hm2 & Hd2).
  destruct (two_digits_facts m1) as [Lm1 Im1]; [lia|].
  destruct (two_digits_facts m2) as [Lm2 _]; [lia|].
  destruct (two_digits_facts dd1) as [Ld1 Id1]; [lia|].
  destruct (two_digits_facts dd2) as [Ld2 _]; [lia|].
  assert (L : forall x y : string,
             String.length (x ++ y) = (String.length x + String.length y)%nat).
  { induction x; cbn; auto. }
  apply append_injective in E as [Ey E];
    [|rewrite !L, Lm1, Lm2, Ld1, Ld2; reflexivity].
  apply append_injective in E as [_ E];
    [|rewrite !L, Lm1, Lm2, Ld1, Ld2; reflexivity].
  apply append_injective in E as [Em E];
    [|rewrite !L, Ld1, Ld2; reflexivity].
  apply append_injective in E as [_ E]; [|now rewrite Ld1, Ld2].
  apply dec_injective in Ey; try lia. apply Im1 in Em; [|lia]. apply Id1 in E; [|lia].
  congruence.
Qed.

End DateStrings.

Section WeekStrings.

Local Open Scope Z_scope.

Lemma week_dates_positive (now : Calendar.datetime) (d : Z) :
  1 <= fst (Calendar.get_week_range now) -> In d (week_dates now) -> 1 <= d.
Proof. intros H Hd. apply in_week_dates in Hd. lia. Qed.

Lemma NoDup_dates_from (n : nat) : forall d, NoDup (dates_from d n).
Proof.
  induction n as [|n IH]; intros d; cbn [dates_from]; constructor.
  - rewrite in_dates_from. lia.
  - apply IH.
Qed.

Lemma NoDup_map_injective {A B : Type} (f : A -> B) (l : list A) :
  (forall x y, In x l -> In y l -> f x = f y -> x = y) ->
  NoDup l -> NoDup (map f l).
Proof.
  intros Hinj Hl. induction Hl as [|a l Ha Hl IH]; cbn; constructor.
  - intros Hin. apply in_map_iff in Hin as (b & Hb & Hbl).
    apply Hinj in Hb; [subst b; contradiction|now right|now left].
  - apply IH. intros x y Hx Hy. apply Hinj; now right.
Qed.

Lemma week_date_strings_NoDup (now : Calendar.datetime) :
  1 <= fst (Calendar.get_week_range now) -> NoDup (week_date_strings now).
Proof.
  intros H. unfold week_date_strings. apply NoDup_map_injective.
  - intros x y Hx Hy. apply strftime_Y_m_d_injective;
      now apply (week_dates_positive now).
  - apply NoDup_dates_from.
Qed.

(** The payments dated one of [dates], day after day, are those whose
    date is among the strings, in another order. *)
Lemma filter_by_day (ps : list payment) (strings : list string) :
  NoDup strings ->
  Permutation
    (flat_map (fun s => filter (fun p => String.eqb (date p) s) ps) strings)
    (filter (fun p => str_in (date p) strings) ps).
Proof.
  intros Hnd. induction Hnd as [|s strings Hs Hnd IH].
  - cbn. induction ps as [|p ps IHp]; [constructor|exact IHp].
  - cbn [flat_map].
    eapply Permutation_trans; [apply Permutation_app_head, IH|].
    clear IH. induction ps as [|p ps IHp]; [constructor|].
    cbn [filter].
    replace (str_in (date p) (s :: strings))
      with (String.eqb (date p) s || str_in (date p) strings)%bool
      by reflexivity.
    destruct (String.eqb (date p) s) eqn:E.
    + cbn [orb app]. apply String.eqb_eq in E.
      destruct (str_in (date p) strings) eqn:Ein.
      * apply str_in_iff in Ein. rewrite E in Ein. contradiction.
      * apply perm_skip. exact IHp.
    + cbn [orb]. destruct (str_in (date p) strings).
      * apply Permutation_sym, Permutation_cons_app, Permutation_sym, IHp.
      * exact IHp.
Qed.

End WeekStrings.

Section OtherWeeks.

Local Open Scope Z_scope.

Lemma filter_none {A : Type} (f : A -> bool) (l : list A) :
  Forall (fun a => f a = false) l -> filter f l = [].
Proof.
  induction 1 as [|a l Ha _ IH]; [reflexivity|]. cbn. now rewrite Ha.
Qed.

Lemma flat_map_map {A B C : Type} (g : A -> B) (f : B -> list C) (l : list A) :
  flat_map f (map g l) = flat_map (fun a => f (g a)) l.
Proof. induction l as [|a l IH]; [reflexivity|]. cbn. now rewrite IH. Qed.

End OtherWeeks.

(** X16.  A message changes the report of no other week: when the day of
    the message is before the Tuesday or after the Saturday of the week
    of a report, the report is the same text with and without what the
    message has recorded.  The dates are dates of Python, from the day 1
    on. *)
Theorem message_leaves_other_weeks (author content : string) (w : World)
    (other : Calendar.datetime) :
  (1 <= Calendar.ordinal (clock w))%Z ->
  (1 <= fst (Calendar.get_week_range other))%Z ->
  (Calendar.ordinal (clock w) < fst (Calendar.get_week_range other)
   \/ snd (Calendar.get_week_range other) < Calendar.ordinal (clock w))%Z ->
  generate_weekly_report (load_data (on_message author content w)) other
  = generate_weekly_report (load_data w) other.
Proof.
  intros Hnow Hother Hout. rewrite on_message_ledger.
  destruct (_ && _ && Calendar.is_collection_day (clock w)); [|reflexivity].
  destruct (fold_record_line_appends (members (load_data w)) (clock w) author
              (message_lines content)
              {| ledger_of := load_data w; recorded_payments := [];
                 errors := [] |})
    as (new & Hl & _ & _ & Hv).
  cbn [ledger_of] in Hl. rewrite Hl.
  apply report_by_day; [reflexivity|].
  intros d Hd. unfold day_payments, append_payments. cbn [payments].
  rewrite filter_app, (filter_none _ new); [apply app_nil_r|].
  apply (Forall_impl _ (P := recorded_now (members (load_data w)) (clock w) author));
    [|exact Hv].
  intros p (_ & _ & Hdate & _). rewrite Hdate.
  apply String.eqb_neq. intros E.
  apply strftime_Y_m_d_injective in E;
    [|exact Hnow|now apply (week_dates_positive other)].
  apply in_week_dates in Hd. lia.
Qed.

(** The batch of the example, and the report of the week after. *)
Lemma message_leaves_other_weeks_witness :
  let next_week := {| Calendar.ordinal := 739924; Calendar.hour := 12;
                      Calendar.minute := 0; Calendar.second := 0 |} in
  generate_weekly_report
    (load_data (on_message "ann" example_batch example_world)) next_week
  = generate_weekly_report (load_data example_world) next_week.
Proof.
  cbv zeta.
  apply (message_leaves_other_weeks "ann" example_batch example_world
           {| Calendar.ordinal := 739924; Calendar.hour := 12;
              Calendar.minute := 0; Calendar.second := 0 |}).
  - vm_compute. discriminate.
  - vm_compute. discriminate.
  - left. vm_compute. reflexivity.
Defined.

(** X17.  The days of the report have five different date strings, so no
    payment is listed under two days: the payments of the daily breakdown
    are the payments of the ledger dated in the week, each as often as
    the ledger has it. *)
Theorem week_payments_once (data : ledger) (now : Calendar.datetime) :
  (1 <= fst (Calendar.get_week_range now))%Z ->
  NoDup (week_date_strings now) /\
  Permutation (week_payments data now) (payments (in_week_only data now)).
Proof.
  intros H. pose proof (week_date_strings_NoDup now H) as Hnd.
  split; [exact Hnd|].
  unfold week_payments, in_week_only. cbn [payments].
  apply (Permutation_trans (l' :=
           flat_map (fun s => filter (fun p => String.eqb (date p) s)
                                     (payments data))
                    (week_date_strings now))).
  - unfold week_date_strings. rewrite flat_map_map. apply Permutation_refl.
  - now apply filter_by_day.
Qed.

Lemma week_payments_once_witness :
  let data := load_data (on_message "ann" example_batch example_world) in
  NoDup (week_date_strings (clock example_world)) /\
  Permutation (week_payments data (clock example_world))
              (payments (in_week_only data (clock example_world))).
Proof.
  cbv zeta.
  apply (week_payments_once
           (load_data (on_message "ann" example_batch example_world))
           (clock example_world)).
  vm_compute. discriminate.
Defined.

(** ** The examples of the specification *)

Example parse_john :
  parse_payment_line "@john 50 paid" ["john"]
  = (Some "john", Some (PyFloat.of_decimal false 50 0)).
Proof. vm_compute. reflexivity. Qed.

Example parse_no_at_sign :
  parse_payment_line "no at sign 10 paid" ["john"] = (None, None).
Proof. vm_compute. reflexivity. Qed.

Example parse_roster_case :
  parse_payment_line "  @JOHN 12.50paid  " ["John"]
  = (Some "John", Some (PyFloat.of_decimal false 125 (-1))).
Proof. vm_compute. reflexivity. Qed.

Example parse_infinite_amount :
  parse_payment_line "@john inf" ["john"; "mary"]
  = (Some "john", Some (S754_infinity false)).
Proof. vm_compute. reflexivity. Qed.

Example float_tenth :
  PyFloat.of_string "0.1" = Some (S754_finite false 7205759403792794 (-56)).
Proof. vm_compute. reflexivity. Qed.

Example float_texts :
  map (fun s => option_map PyFloat.format_2f (PyFloat.of_string s))
      ["50"; "0.125"; "2.675"; "1_000.5"; "-0.001"; "1e400"; "nan"; "1e";
       "1__0"; "12abc"]
  = [Some "50.00"; Some "0.12"; Some "2.67"; Some "1000.50"; Some "-0.00";
     Some "inf"; Some "nan"; None; None; None].
Proof. vm_compute. reflexivity. Qed.

Example sunday_week :
  Calendar.get_week_range
    {| Calendar.ordinal := 739921; Calendar.hour := 9;
       Calendar.minute := 0; Calendar.second := 0 |}
  = (739921 - 5, 739921 - 1)%Z.
Proof. reflexivity. Qed.

Example dates_of_the_week :
  map Calendar.strftime_Y_m_d
      (week_dates {| Calendar.ordinal := 739921; Calendar.hour := 9;
                     Calendar.minute := 0; Calendar.second := 0 |})
  = ["2026-10-27"; "2026-10-28"; "2026-10-29"; "2026-10-30"; "2026-10-31"].
Proof. vm_compute. reflexivity. Qed.

Example report_of_a_week :
  generate_weekly_report
    {| payments :=
         [new_payment wednesday_noon "ann" "john" (PyFloat.of_decimal false 505 (-1));
          new_payment wednesday_noon "ann" "zed" (PyFloat.of_decimal false 10 0)];
       members := ["john"; "mary"];
       report_channel := None |}
    {| Calendar.ordinal := 739921; Calendar.hour := 9;
       Calendar.minute := 0; Calendar.second := 0 |}
  = "```
==================================================
📊 WEEKLY MONEY COLLECTION REPORT
📆 October 27 - October 31, 2026
==================================================

📋 DAILY BREAKDOWN:
----------------------------------------

📅 Tuesday (2026-10-27):
   No payments recorded

📅 Wednesday (2026-10-28):
   • @john: $50.50
   • @zed: $10.00
   Daily Total: $60.50

📅 Thursday (2026-10-29):
   No payments recorded

📅 Friday (2026-10-30):
   No payments recorded

📅 Saturday (2026-10-31):
   No payments recorded

----------------------------------------
👥 MEMBER SUMMARY:
----------------------------------------
✅ @john: $50.50 (Days: Wed)
❌ @mary: $0.00 (Days: None)

==================================================
💰 WEEKLY TOTAL: $60.50
==================================================
```".
Proof. vm_compute. reflexivity. Qed.
